(** * SPX Daily Trader: BigQuery provisioning script

    A model of [cloud-function/setup_bigquery.py].  The script talks to the
    warehouse through a client handle; here the handle is a function from
    API calls to their effect on an arbitrary warehouse state, every API call is recorded
    with its outcome in a log, and Python exceptions are an explicit
    outcome. *)

From Stdlib Require Import String Ascii List.
From stdpp Require Import base option list gmap strings.
Import ListNotations.
Local Open Scope string_scope.
Local Open Scope list_scope.

Set Default Proof Using "Type".

(** ** Schema fields and table objects (google.cloud.bigquery) *)

(** [bigquery.SchemaField(name, field_type, mode=..., default_value_expression=...)] *)
Record SchemaField := mkSchemaField {
  name : string;
  field_type : string;
  mode : string;
  default_value_expression : option string
}.

(** [bigquery.TimePartitioningType] *)
Inductive TimePartitioningType := DAY | HOUR | MONTH | YEAR.

(** [bigquery.TimePartitioning(type_=..., field=...)] *)
Record TimePartitioning := mkTimePartitioning {
  type_ : TimePartitioningType;
  field : string
}.

(** [bigquery.Table(table_id, schema=...)]: the client-side description of
    a table or a view.  A fresh object has no partitioning, no clustering
    and no view query. *)
Record Table := mkTable {
  table_id : string;
  schema : list SchemaField;
  time_partitioning : option TimePartitioning;
  clustering_fields : option (list string);
  view_query : option string
}.

Definition new_Table (id : string) (sch : list SchemaField) : Table :=
  {| table_id := id; schema := sch; time_partitioning := None;
     clustering_fields := None; view_query := None |}.

Definition set_time_partitioning (tp : TimePartitioning) (t : Table) : Table :=
  {| table_id := table_id t; schema := schema t; time_partitioning := Some tp;
     clustering_fields := clustering_fields t; view_query := view_query t |}.

Definition set_clustering_fields (cf : list string) (t : Table) : Table :=
  {| table_id := table_id t; schema := schema t;
     time_partitioning := time_partitioning t;
     clustering_fields := Some cf; view_query := view_query t |}.

Definition set_view_query (q : string) (t : Table) : Table :=
  {| table_id := table_id t; schema := schema t;
     time_partitioning := time_partitioning t;
     clustering_fields := clustering_fields t; view_query := Some q |}.

(** [bigquery.Dataset(dataset_id)] with its [location] attribute. *)
Record Dataset := mkDataset {
  dataset_id : string;
  location : option string
}.

Definition new_Dataset (id : string) : Dataset :=
  {| dataset_id := id; location := None |}.

Definition set_location (loc : string) (d : Dataset) : Dataset :=
  {| dataset_id := dataset_id d; location := Some loc |}.

Global Instance SchemaField_eq_dec : EqDecision SchemaField.
Proof. solve_decision. Defined.
Global Instance TimePartitioningType_eq_dec : EqDecision TimePartitioningType.
Proof. solve_decision. Defined.
Global Instance TimePartitioning_eq_dec : EqDecision TimePartitioning.
Proof. solve_decision. Defined.
Global Instance Table_eq_dec : EqDecision Table.
Proof. solve_decision. Defined.
Global Instance Dataset_eq_dec : EqDecision Dataset.
Proof. solve_decision. Defined.

(** ** Exceptions, API calls and the process state *)

(** [google.cloud.exceptions.NotFound] is the one exception the script
    catches; every other API error is kept with its name. *)
Inductive exn :=
| NotFound
| ApiError (reason : string).

Global Instance exn_eq_dec : EqDecision exn.
Proof. solve_decision. Defined.

(** The methods of [bigquery.Client] the script uses. *)
Inductive call :=
| GetDataset (id : string)
| CreateDataset (d : Dataset)
| GetTable (id : string)
| DeleteTable (id : string)
| CreateTable (t : Table).

Global Instance call_eq_dec : EqDecision call.
Proof. solve_decision. Defined.

(** Outcome of a computation: a value or a raised exception. *)
Inductive outcome (A : Type) :=
| Ok (a : A)
| Raise (e : exn).
Arguments Ok {A} a.
Arguments Raise {A} e.

Global Instance outcome_eq_dec {A} `{EqDecision A} : EqDecision (outcome A).
Proof. solve_decision. Defined.

(** One entry of the API log: the call and how it ended. *)
Definition event : Type := call * outcome unit.

(** The state of the running script over a warehouse of type [W]: the
    warehouse behind the client, the API calls made so far with their
    outcomes (oldest first) and the lines printed so far. *)
Record proc (W : Type) := mkProc {
  world : W;
  log : list event;
  stdout : list string
}.
Arguments mkProc {W} _ _ _.
Arguments world {W} _.
Arguments log {W} _.
Arguments stdout {W} _.

Definition M (W A : Type) : Type := proc W -> outcome A * proc W.

Global Instance M_ret {W} : MRet (M W) := fun A a s => (Ok a, s).

Global Instance M_bind {W} : MBind (M W) := fun A B k m s =>
  match m s with
  | (Ok a, s') => k a s'
  | (Raise e, s') => (Raise e, s')
  end.

(** [try: body except NotFound: handler].  Any other exception of the body
    leaves the statement; an exception of the handler leaves it too. *)
Definition try_except_NotFound {W} (body handler : M W unit) : M W unit :=
  fun s => match body s with
           | (Raise NotFound, s') => handler s'
           | r => r
           end.

Definition print {W} (line : string) : M W unit :=
  fun s => (Ok tt, mkProc (world s) (log s) (stdout s ++ [line])).

(** A client handle: what each API method does to the warehouse. *)
Definition Client (W : Type) : Type := call -> W -> outcome unit * W.

(** Performing an API call through the client records it in the log,
    whether it returns or raises. *)
Definition invoke {W} (client : Client W) (c : call) : M W unit :=
  fun s => let '(r, w') := client c (world s) in
           (r, mkProc w' (log s ++ [(c, r)]) (stdout s)).

(** A run of the script starts with nothing logged and nothing printed. *)
Definition run {W A} (m : M W A) (w : W) : outcome A * proc W :=
  m (mkProc w [] []).

(** ** Python truthiness of the optional arguments *)

(** [if partition_field:] is false for [None] and for the empty string. *)
Definition truthy_str (o : option string) : bool :=
  match o with
  | Some EmptyString => false
  | Some _ => true
  | None => false
  end.

(** [if cluster_fields:] is false for [None] and for the empty list. *)
Definition truthy_list {A} (o : option (list A)) : bool :=
  match o with
  | Some [] => false
  | Some _ => true
  | None => false
  end.

(** ** Table schemas *)

(** [get_daily_summary_schema()]: Get schema for daily_summary table *)
Definition get_daily_summary_schema : list SchemaField :=
  [
    mkSchemaField "date" "DATE" "REQUIRED" None;
    mkSchemaField "strategy" "STRING" "REQUIRED" (Some "'MACD_Momentum'");
    mkSchemaField "trading_day" "STRING" "REQUIRED" None;
    mkSchemaField "spx_bars_count" "INTEGER" "REQUIRED" None;
    mkSchemaField "entry_signals" "INTEGER" "REQUIRED" None;
    mkSchemaField "exit_signals" "INTEGER" "REQUIRED" None;
    mkSchemaField "total_trades" "INTEGER" "REQUIRED" None;
    mkSchemaField "winning_trades" "INTEGER" "REQUIRED" None;
    mkSchemaField "losing_trades" "INTEGER" "REQUIRED" None;
    mkSchemaField "win_rate" "FLOAT" "REQUIRED" None;
    mkSchemaField "total_profit" "FLOAT" "REQUIRED" None;
    mkSchemaField "total_loss" "FLOAT" "REQUIRED" None;
    mkSchemaField "net_pnl" "FLOAT" "REQUIRED" None;
    mkSchemaField "average_win" "FLOAT" "NULLABLE" None;
    mkSchemaField "average_loss" "FLOAT" "NULLABLE" None;
    mkSchemaField "api_requests_made" "INTEGER" "REQUIRED" None;
    mkSchemaField "execution_time_seconds" "FLOAT" "NULLABLE" None;
    mkSchemaField "market_open_spx" "FLOAT" "NULLABLE" None;
    mkSchemaField "market_close_spx" "FLOAT" "NULLABLE" None;
    mkSchemaField "spx_daily_change" "FLOAT" "NULLABLE" None;
    mkSchemaField "spx_daily_change_percent" "FLOAT" "NULLABLE" None;
    mkSchemaField "created_at" "TIMESTAMP" "NULLABLE" (Some "CURRENT_TIMESTAMP()");
    mkSchemaField "cloud_function_version" "STRING" "NULLABLE" None;
    mkSchemaField "error_message" "STRING" "NULLABLE" None
  ].

(** [get_trades_schema()]: Get schema for trades table *)
Definition get_trades_schema : list SchemaField :=
  [
    mkSchemaField "date" "DATE" "REQUIRED" None;
    mkSchemaField "trade_id" "STRING" "REQUIRED" None;
    mkSchemaField "symbol" "STRING" "REQUIRED" None;
    mkSchemaField "strike_price" "INTEGER" "REQUIRED" None;
    mkSchemaField "entry_time" "TIMESTAMP" "REQUIRED" None;
    mkSchemaField "entry_time_est" "STRING" "REQUIRED" None;
    mkSchemaField "entry_price" "FLOAT" "REQUIRED" None;
    mkSchemaField "entry_spx_price" "FLOAT" "REQUIRED" None;
    mkSchemaField "entry_macd" "FLOAT" "REQUIRED" None;
    mkSchemaField "entry_signal" "FLOAT" "REQUIRED" None;
    mkSchemaField "entry_histogram" "FLOAT" "REQUIRED" None;
    mkSchemaField "exit_time" "TIMESTAMP" "NULLABLE" None;
    mkSchemaField "exit_time_est" "STRING" "NULLABLE" None;
    mkSchemaField "exit_price" "FLOAT" "NULLABLE" None;
    mkSchemaField "exit_spx_price" "FLOAT" "NULLABLE" None;
    mkSchemaField "exit_macd" "FLOAT" "NULLABLE" None;
    mkSchemaField "exit_signal" "FLOAT" "NULLABLE" None;
    mkSchemaField "exit_histogram" "FLOAT" "NULLABLE" None;
    mkSchemaField "hold_duration_minutes" "INTEGER" "NULLABLE" None;
    mkSchemaField "pnl" "FLOAT" "REQUIRED" None;
    mkSchemaField "pnl_percent" "FLOAT" "REQUIRED" None;
    mkSchemaField "exit_reason" "STRING" "REQUIRED" None;
    mkSchemaField "is_winner" "BOOLEAN" "REQUIRED" None;
    mkSchemaField "trade_sequence" "INTEGER" "REQUIRED" None;
    mkSchemaField "created_at" "TIMESTAMP" "NULLABLE" (Some "CURRENT_TIMESTAMP()")
  ].

(** [get_market_data_schema()]: Get schema for market_data_archive table *)
Definition get_market_data_schema : list SchemaField :=
  [
    mkSchemaField "date" "DATE" "REQUIRED" None;
    mkSchemaField "timestamp" "TIMESTAMP" "REQUIRED" None;
    mkSchemaField "spx_price" "FLOAT" "REQUIRED" None;
    mkSchemaField "spx_open" "FLOAT" "NULLABLE" None;
    mkSchemaField "spx_high" "FLOAT" "NULLABLE" None;
    mkSchemaField "spx_low" "FLOAT" "NULLABLE" None;
    mkSchemaField "volume" "INTEGER" "NULLABLE" None;
    mkSchemaField "created_at" "TIMESTAMP" "NULLABLE" (Some "CURRENT_TIMESTAMP()")
  ].

(** ** View queries

    The three f-strings of [create_views], as functions of the two names
    they interpolate. *)

Definition daily_performance_query (project_id dataset_name : string) : string :=
  "
    SELECT 
      date,
      net_pnl,
      win_rate,
      total_trades,
      spx_daily_change_percent,
      CASE 
        WHEN net_pnl > 0 THEN 'Profitable'
        WHEN net_pnl < 0 THEN 'Loss'
        ELSE 'Breakeven'
      END as day_result
    FROM `" +:+ project_id +:+ "." +:+ dataset_name +:+ ".daily_summary`
    ORDER BY date DESC
    ".

Definition monthly_summary_query (project_id dataset_name : string) : string :=
  "
    SELECT 
      EXTRACT(YEAR FROM date) as year,
      EXTRACT(MONTH FROM date) as month,
      COUNT(*) as trading_days,
      SUM(total_trades) as total_trades,
      SUM(net_pnl) as monthly_pnl,
      AVG(win_rate) as avg_win_rate,
      COUNT(CASE WHEN net_pnl > 0 THEN 1 END) as profitable_days,
      COUNT(CASE WHEN net_pnl < 0 THEN 1 END) as loss_days
    FROM `" +:+ project_id +:+ "." +:+ dataset_name +:+ ".daily_summary`
    GROUP BY year, month
    ORDER BY year DESC, month DESC
    ".

Definition strike_performance_query (project_id dataset_name : string) : string :=
  "
    SELECT 
      strike_price,
      COUNT(*) as total_trades,
      SUM(CASE WHEN is_winner THEN 1 ELSE 0 END) as winning_trades,
      SAFE_DIVIDE(SUM(CASE WHEN is_winner THEN 1 ELSE 0 END), COUNT(*)) as win_rate,
      AVG(pnl) as avg_pnl,
      SUM(pnl) as total_pnl,
      AVG(hold_duration_minutes) as avg_hold_minutes
    FROM `" +:+ project_id +:+ "." +:+ dataset_name +:+ ".trades`
    GROUP BY strike_price
    ORDER BY total_trades DESC
    ".

(** ** The script *)

Section Script.
Context {W : Type}.
Variable client : Client W.

(** Lines 24 to 33 of [create_table]: the description handed to the client. *)
Definition build_table (tid : string) (sch : list SchemaField)
    (partition_field : option string)
    (cluster_fields : option (list string)) : Table :=
  let table := new_Table tid sch in
  let table :=
    if truthy_str partition_field
    then set_time_partitioning
           (mkTimePartitioning DAY (default "" partition_field)) table
    else table in
  let table :=
    if truthy_list cluster_fields
    then set_clustering_fields (default [] cluster_fields) table
    else table in
  table.

(** [create_table(client, project_id, dataset_name, table_name, schema,
    partition_field=None, cluster_fields=None)] *)
Definition create_table (project_id dataset_name table_name : string)
    (sch : list SchemaField) (partition_field : option string)
    (cluster_fields : option (list string)) : M W bool :=
  let tid := project_id +:+ "." +:+ dataset_name +:+ "." +:+ table_name in
  try_except_NotFound
    (invoke client (GetTable tid) ;;
     invoke client (DeleteTable tid) ;;
     print ("Deleted existing table '" +:+ table_name +:+ "'"))
    (mret tt) ;;
  print ("Creating table: " +:+ table_name) ;;
  let table := build_table tid sch partition_field cluster_fields in
  invoke client (CreateTable table) ;;
  print ("✅ Table '" +:+ table_name +:+ "' created") ;;
  mret true.

(** [create_view(client, project_id, dataset_name, view_name, query)] *)
Definition create_view (project_id dataset_name view_name query : string)
    : M W bool :=
  let view_id := project_id +:+ "." +:+ dataset_name +:+ "." +:+ view_name in
  try_except_NotFound
    (invoke client (GetTable view_id) ;;
     invoke client (DeleteTable view_id) ;;
     print ("Deleted existing view '" +:+ view_name +:+ "'"))
    (mret tt) ;;
  print ("Creating view: " +:+ view_name) ;;
  let view := new_Table view_id [] in
  let view := set_view_query query view in
  invoke client (CreateTable view) ;;
  print ("✅ View '" +:+ view_name +:+ "' created") ;;
  mret true.

(** [create_views(client, project_id, dataset_name)] *)
Definition create_views (project_id dataset_name : string) : M W unit :=
  print "Creating views..." ;;
  create_view project_id dataset_name "daily_performance"
    (daily_performance_query project_id dataset_name) ;;
  create_view project_id dataset_name "monthly_summary"
    (monthly_summary_query project_id dataset_name) ;;
  create_view project_id dataset_name "strike_performance"
    (strike_performance_query project_id dataset_name) ;;
  mret tt.

(** The first statement of [main] after the client is built: create the
    dataset if it does not exist. *)
Definition ensure_dataset (dataset_name dataset_id : string) : M W unit :=
  try_except_NotFound
    (invoke client (GetDataset dataset_id) ;;
     print ("Dataset '" +:+ dataset_name +:+ "' already exists"))
    (print ("Creating dataset '" +:+ dataset_name +:+ "'...") ;;
     let dataset := new_Dataset dataset_id in
     let dataset := set_location "US" dataset in
     invoke client (CreateDataset dataset) ;;
     print ("✅ Dataset '" +:+ dataset_name +:+ "' created")).

(** [main()] *)
Definition main : M W unit :=
  let project_id := "galvanic-ripsaw-381707" in
  let dataset_name := "spx_trading" in
  let dataset_id := project_id +:+ "." +:+ dataset_name in
  ensure_dataset dataset_name dataset_id ;;
  create_table project_id dataset_name "daily_summary"
    get_daily_summary_schema
    (Some "date") (Some ["date"; "strategy"]) ;;
  create_table project_id dataset_name "trades"
    get_trades_schema
    (Some "date") (Some ["date"; "symbol"; "trade_sequence"]) ;;
  create_table project_id dataset_name "market_data_archive"
    get_market_data_schema
    (Some "date") (Some ["date"; "timestamp"]) ;;
  create_views project_id dataset_name ;;
  print "✅ BigQuery setup complete".

End Script.

(** ** A reference warehouse

    The behaviour of the warehouse behind [bigquery.Client], as far as the
    script can observe it: datasets and objects (tables and views) keyed by
    their full identifier, and a schedule of what the environment does
    before each API call is served.  Objects are looked up by identifier
    only; that a table lives inside a dataset is not modelled. *)

Definition row : Type := list (string * string).

(** What the warehouse keeps for a table or a view: its description and,
    for a table, the rows loaded so far. *)
Record stored := mkStored {
  definition : Table;
  rows : list row
}.

(** What the environment does just before a call is served. *)
Inductive interference :=
| Quiet                 (* nothing *)
| Fail (e : exn)        (* the call fails with [e], the warehouse is untouched *)
| Drop (id : string).   (* another actor deletes the object [id] first *)

Record warehouse := mkWarehouse {
  datasets : gmap string Dataset;
  objects : gmap string stored;
  schedule : list interference
}.

(** Serving a call without interference.  [get_*] and [delete_table] raise
    [NotFound] on a missing object, [create_*] raise [Conflict] on an
    existing one (the defaults [not_found_ok=False], [exists_ok=False]); a
    created table has no rows. *)
Definition serve (c : call) (ds : gmap string Dataset)
    (os : gmap string stored)
    : outcome unit * (gmap string Dataset * gmap string stored) :=
  match c with
  | GetDataset id =>
      match ds !! id with
      | Some _ => (Ok tt, (ds, os))
      | None => (Raise NotFound, (ds, os))
      end
  | CreateDataset d =>
      match ds !! dataset_id d with
      | Some _ => (Raise (ApiError "Conflict"), (ds, os))
      | None => (Ok tt, (<[dataset_id d := d]> ds, os))
      end
  | GetTable id =>
      match os !! id with
      | Some _ => (Ok tt, (ds, os))
      | None => (Raise NotFound, (ds, os))
      end
  | DeleteTable id =>
      match os !! id with
      | Some _ => (Ok tt, (ds, delete id os))
      | None => (Raise NotFound, (ds, os))
      end
  | CreateTable t =>
      match os !! table_id t with
      | Some _ => (Raise (ApiError "Conflict"), (ds, os))
      | None => (Ok tt, (ds, <[table_id t := mkStored t []]> os))
      end
  end.

Definition bq_client : Client warehouse := fun c w =>
  match schedule w with
  | [] =>
      let '(r, (ds, os)) := serve c (datasets w) (objects w) in
      (r, mkWarehouse ds os [])
  | Quiet :: rest =>
      let '(r, (ds, os)) := serve c (datasets w) (objects w) in
      (r, mkWarehouse ds os rest)
  | Fail e :: rest =>
      (Raise e, mkWarehouse (datasets w) (objects w) rest)
  | Drop id :: rest =>
      let '(r, (ds, os)) := serve c (datasets w) (delete id (objects w)) in
      (r, mkWarehouse ds os rest)
  end.

(** ** Reading the log and the query texts *)

(** The table descriptions handed to [create_table] of the client. *)
Definition created_tables (l : list call) : list Table :=
  omap (fun c => match c with CreateTable t => Some t | _ => None end) l.

(** The datasets handed to [create_dataset] of the client. *)
Definition created_datasets (l : list call) : list Dataset :=
  omap (fun c => match c with CreateDataset d => Some d | _ => None end) l.

(** The errors the script catches: [NotFound] out of a lookup, and out of
    the delete that shares the [try] block of the table lookup. *)
Definition caught (c : call) (e : exn) : bool :=
  match e, c with
  | NotFound, (GetDataset _ | GetTable _ | DeleteTable _) => true
  | _, _ => false
  end.

(** [needle] occurs in [s]. *)
Definition occurs_in (needle s : string) : Prop :=
  exists pre post, s = pre +:+ needle +:+ post.

(** The back-quoted names of a query text: its words that open with a
    back quote. *)
Definition is_quoted (tok : string) : bool :=
  match tok with
  | String "`" _ => true
  | _ => false
  end.

Definition quoted_names (q : string) : list string :=
  List.filter is_quoted (String.words q).

(** The value of a searched CASE expression given as words
    (CASE WHEN col op lit THEN res ... ELSE res END), for a row on which
    [holds col op lit] tells whether the condition [col op lit] is true:
    the result of the first WHEN whose condition holds, else the result
    after ELSE.  [None] for words that are not of this form. *)
Fixpoint case_arms (holds : string -> string -> string -> bool)
    (toks : list string) : option string :=
  match toks with
  | kw :: col :: op :: lit :: th :: res :: rest =>
      if String.eqb kw "WHEN" && String.eqb th "THEN"
      then if holds col op lit then Some res else case_arms holds rest
      else None
  | [kw; res; en] =>
      if String.eqb kw "ELSE" && String.eqb en "END" then Some res else None
  | _ => None
  end.

Definition searched_case (holds : string -> string -> string -> bool)
    (toks : list string) : option string :=
  match toks with
  | kw :: arms => if String.eqb kw "CASE" then case_arms holds arms else None
  | [] => None
  end.

(** ** The identifiers of a query text *)






(** The column triple a schema field documents. *)
Definition column (f : SchemaField) : string * string * string :=
  (name f, field_type f, mode f).

(** The calls that provision one object, in program order. *)
Definition object_script (t : Table) : list call :=
  [GetTable (table_id t); DeleteTable (table_id t); CreateTable t].

(** The objects [main] provisions, as the client receives them. *)
Definition daily_summary_table : Table :=
  {| table_id := "galvanic-ripsaw-381707.spx_trading.daily_summary";
     schema := get_daily_summary_schema;
     time_partitioning := Some (mkTimePartitioning DAY "date");
     clustering_fields := Some ["date"; "strategy"];
     view_query := None |}.

Definition trades_table : Table :=
  {| table_id := "galvanic-ripsaw-381707.spx_trading.trades";
     schema := get_trades_schema;
     time_partitioning := Some (mkTimePartitioning DAY "date");
     clustering_fields := Some ["date"; "symbol"; "trade_sequence"];
     view_query := None |}.

Definition market_data_archive_table : Table :=
  {| table_id := "galvanic-ripsaw-381707.spx_trading.market_data_archive";
     schema := get_market_data_schema;
     time_partitioning := Some (mkTimePartitioning DAY "date");
     clustering_fields := Some ["date"; "timestamp"];
     view_query := None |}.

Definition daily_performance_view : Table :=
  {| table_id := "galvanic-ripsaw-381707.spx_trading.daily_performance";
     schema := [];
     time_partitioning := None;
     clustering_fields := None;
     view_query :=
       Some (daily_performance_query "galvanic-ripsaw-381707" "spx_trading") |}.

Definition monthly_summary_view : Table :=
  {| table_id := "galvanic-ripsaw-381707.spx_trading.monthly_summary";
     schema := [];
     time_partitioning := None;
     clustering_fields := None;
     view_query :=
       Some (monthly_summary_query "galvanic-ripsaw-381707" "spx_trading") |}.

Definition strike_performance_view : Table :=
  {| table_id := "galvanic-ripsaw-381707.spx_trading.strike_performance";
     schema := [];
     time_partitioning := None;
     clustering_fields := None;
     view_query :=
       Some (strike_performance_query "galvanic-ripsaw-381707" "spx_trading") |}.

(** The dataset [main] creates when it is missing. *)
Definition main_dataset : Dataset :=
  {| dataset_id := "galvanic-ripsaw-381707.spx_trading";
     location := Some "US" |}.

(** The calls [main] can make, in program order. *)
Definition dataset_script : list call :=
  [GetDataset "galvanic-ripsaw-381707.spx_trading"; CreateDataset main_dataset].

Definition objects_script : list call :=
  object_script daily_summary_table
  ++ object_script trades_table
  ++ object_script market_data_archive_table
  ++ object_script daily_performance_view
  ++ object_script monthly_summary_view
  ++ object_script strike_performance_view.

Definition main_script : list call := dataset_script ++ objects_script.

(** An entry of the log that lets the script go on: the call returned, or
    raised an error the script catches. *)
Definition passes (ev : event) : Prop :=
  match ev.2 with
  | Ok _ => True
  | Raise e => caught ev.1 e = true
  end.

(** How a log segment and the outcome of the computation that wrote it
    fit together: a computation that returns has only passing entries; one
    that raises [e] ends its segment with the call that raised [e], which
    the script does not catch, after passing entries only. *)
Definition ends_with {A} (l : list event) (r : outcome A) : Prop :=
  match r with
  | Ok _ => Forall passes l
  | Raise e =>
      exists l' c, l = l' ++ [(c, Raise e)] /\ Forall passes l'
                   /\ caught c e = false
  end.

(** [m] follows [script]: from any state it appends to the log a
    subsequence of [script] that fits its outcome, and when it returns it
    has handed every table description of [script] to the client. *)
Definition follows {W A} (m : M W A) (script : list call) : Prop :=
  forall s, exists l,
    log (m s).2 = log s ++ l
    /\ sublist (l.*1) script
    /\ ends_with l (m s).1
    /\ ((exists a, (m s).1 = Ok a) ->
        created_tables (l.*1) = created_tables script).

(** The six objects of [main], tables first, in the order they are made. *)
Definition main_objects : list Table :=
  [daily_summary_table; trades_table; market_data_archive_table;
   daily_performance_view; monthly_summary_view; strike_performance_view].

(** Storing the freshly created object [t]: it replaces whatever was kept
    under its identifier and has no rows. *)
Definition install (t : Table) (os : gmap string stored) : gmap string stored :=
  <[table_id t := mkStored t []]> os.

(** The objects of the warehouse after [main] has provisioned all six. *)
Definition provisioned (os : gmap string stored) : gmap string stored :=
  install strike_performance_view
    (install monthly_summary_view
      (install daily_performance_view
        (install market_data_archive_table
          (install trades_table
            (install daily_summary_table os))))).

(** The datasets of the warehouse after the dataset has been ensured. *)
Definition ensured (ds : gmap string Dataset) : gmap string Dataset :=
  match ds !! dataset_id main_dataset with
  | Some _ => ds
  | None => <[dataset_id main_dataset := main_dataset]> ds
  end.

(** ** What a computation prints and how it orders its calls *)

(** [m] never prints [line]. *)
Definition silent_about {W A} (line : string) (m : M W A) : Prop :=
  forall s, exists l, stdout (m s).2 = stdout s ++ l /\ line ∉ l.

(** [m] hands the descriptions [objs] to the client in this order, none
    skipped: whatever it has handed over is an initial segment of [objs],
    and all of [objs] when it returns. *)
Definition creates_in_order {W A} (m : M W A) (objs : list Table) : Prop :=
  forall s, exists l,
    log (m s).2 = log s ++ l
    /\ created_tables (l.*1) `prefix_of` objs
    /\ ((exists a, (m s).1 = Ok a) -> created_tables (l.*1) = objs).

(** Every delete of the log segment [l] comes right after a lookup of the
    same object that returned. *)
Definition deletes_after_lookup (l : list event) : Prop :=
  forall l1 id r l2,
    l = l1 ++ (DeleteTable id, r) :: l2 ->
    exists l0, l1 = l0 ++ [(GetTable id, Ok tt)].

(** [m] prints [line] when it returns, as its last line, and not
    otherwise. *)
Definition finishes_with {W A} (line : string) (m : M W A) : Prop :=
  forall s, line ∉ stdout s ->
    ((exists a, (m s).1 = Ok a) <-> line ∈ stdout (m s).2)
    /\ ((exists a, (m s).1 = Ok a) -> last (stdout (m s).2) = Some line).

(** The log segment [m] writes satisfies [P], from any state. *)
Definition logs {W A} (P : list event -> Prop) (m : M W A) : Prop :=
  forall s, exists l, log (m s).2 = log s ++ l /\ P l.

(** What the script does after a [NotFound] it catches: [c'] is the call
    that follows the call [c].  After the dataset lookup it is the creation
    of that dataset with location "US"; after a table lookup or a delete it
    is the creation of an object under the same name. *)
Definition answers (c c' : call) : Prop :=
  match c, c' with
  | GetDataset id, CreateDataset d =>
      d = {| dataset_id := id; location := Some "US" |}
  | GetTable id, CreateTable t => table_id t = id
  | DeleteTable id, CreateTable t => table_id t = id
  | _, _ => False
  end.

(** In the log segment [l] every error the script catches is followed at
    once by the create call that answers it: the script goes on. *)
Definition resumes (l : list event) : Prop :=
  forall l1 c e l2,
    l = l1 ++ (c, Raise e) :: l2 ->
    caught c e = true ->
    exists c' o l3, l2 = (c', o) :: l3 /\ answers c c'.

(** ** Sample warehouses *)

(** Nothing provisioned yet, no interference. *)
Definition empty_warehouse : warehouse := mkWarehouse ∅ ∅ [].

(** The dataset is there already, no interference. *)
Definition warehouse_with_dataset : warehouse :=
  mkWarehouse
    {[ "galvanic-ripsaw-381707.spx_trading" :=
         mkDataset "galvanic-ripsaw-381707.spx_trading" (Some "EU") ]} ∅ [].

(** An empty warehouse that refuses the sixth API call of the run, the
    creation of the trades table. *)
Definition forbidding_warehouse : warehouse :=
  mkWarehouse ∅ ∅
    [Quiet; Quiet; Quiet; Quiet; Quiet; Fail (ApiError "Forbidden")].

(** A warehouse holding an old daily_summary table with one row, where
    another actor deletes that table between the lookup and the delete of
    the script (its third and fourth API calls). *)
Definition racing_warehouse : warehouse :=
  mkWarehouse ∅
    {[ "galvanic-ripsaw-381707.spx_trading.daily_summary" :=
         mkStored
           (new_Table "galvanic-ripsaw-381707.spx_trading.daily_summary"
              [mkSchemaField "date" "DATE" "REQUIRED" None])
           [[("date", "2024-01-02")]] ]}
    [Quiet; Quiet; Quiet;
     Drop "galvanic-ripsaw-381707.spx_trading.daily_summary"].

(** * Properties *)

(** ** Schemas *)

Lemma NoDup_by_decide {A} `{EqDecision A} (l : list A) :
  bool_decide (NoDup l) = true -> NoDup l.
Proof. apply bool_decide_eq_true_1. Qed.

(** C1: each schema function returns exactly the documented columns, in
    order, with their types and modes: 24 columns for daily_summary, 25 for
    trades and 8 for market_data_archive; no column name is repeated and
    every mode is REQUIRED or NULLABLE. *)
Theorem schemas_have_documented_columns :
  (length get_daily_summary_schema = 24
   /\ length get_trades_schema = 25
   /\ length get_market_data_schema = 8)
  /\ column <$> get_daily_summary_schema = [
       ("date", "DATE", "REQUIRED");
       ("strategy", "STRING", "REQUIRED");
       ("trading_day", "STRING", "REQUIRED");
       ("spx_bars_count", "INTEGER", "REQUIRED");
       ("entry_signals", "INTEGER", "REQUIRED");
       ("exit_signals", "INTEGER", "REQUIRED");
       ("total_trades", "INTEGER", "REQUIRED");
       ("winning_trades", "INTEGER", "REQUIRED");
       ("losing_trades", "INTEGER", "REQUIRED");
       ("win_rate", "FLOAT", "REQUIRED");
       ("total_profit", "FLOAT", "REQUIRED");
       ("total_loss", "FLOAT", "REQUIRED");
       ("net_pnl", "FLOAT", "REQUIRED");
       ("average_win", "FLOAT", "NULLABLE");
       ("average_loss", "FLOAT", "NULLABLE");
       ("api_requests_made", "INTEGER", "REQUIRED");
       ("execution_time_seconds", "FLOAT", "NULLABLE");
       ("market_open_spx", "FLOAT", "NULLABLE");
       ("market_close_spx", "FLOAT", "NULLABLE");
       ("spx_daily_change", "FLOAT", "NULLABLE");
       ("spx_daily_change_percent", "FLOAT", "NULLABLE");
       ("created_at", "TIMESTAMP", "NULLABLE");
       ("cloud_function_version", "STRING", "NULLABLE");
       ("error_message", "STRING", "NULLABLE")
    ]
  /\ column <$> get_trades_schema = [
       ("date", "DATE", "REQUIRED");
       ("trade_id", "STRING", "REQUIRED");
       ("symbol", "STRING", "REQUIRED");
       ("strike_price", "INTEGER", "REQUIRED");
       ("entry_time", "TIMESTAMP", "REQUIRED");
       ("entry_time_est", "STRING", "REQUIRED");
       ("entry_price", "FLOAT", "REQUIRED");
       ("entry_spx_price", "FLOAT", "REQUIRED");
       ("entry_macd", "FLOAT", "REQUIRED");
       ("entry_signal", "FLOAT", "REQUIRED");
       ("entry_histogram", "FLOAT", "REQUIRED");
       ("exit_time", "TIMESTAMP", "NULLABLE");
       ("exit_time_est", "STRING", "NULLABLE");
       ("exit_price", "FLOAT", "NULLABLE");
       ("exit_spx_price", "FLOAT", "NULLABLE");
       ("exit_macd", "FLOAT", "NULLABLE");
       ("exit_signal", "FLOAT", "NULLABLE");
       ("exit_histogram", "FLOAT", "NULLABLE");
       ("hold_duration_minutes", "INTEGER", "NULLABLE");
       ("pnl", "FLOAT", "REQUIRED");
       ("pnl_percent", "FLOAT", "REQUIRED");
       ("exit_reason", "STRING", "REQUIRED");
       ("is_winner", "BOOLEAN", "REQUIRED");
       ("trade_sequence", "INTEGER", "REQUIRED");
       ("created_at", "TIMESTAMP", "NULLABLE")
    ]
  /\ column <$> get_market_data_schema = [
       ("date", "DATE", "REQUIRED");
       ("timestamp", "TIMESTAMP", "REQUIRED");
       ("spx_price", "FLOAT", "REQUIRED");
       ("spx_open", "FLOAT", "NULLABLE");
       ("spx_high", "FLOAT", "NULLABLE");
       ("spx_low", "FLOAT", "NULLABLE");
       ("volume", "INTEGER", "NULLABLE");
       ("created_at", "TIMESTAMP", "NULLABLE")
    ]
  /\ (NoDup (name <$> get_daily_summary_schema)
      /\ NoDup (name <$> get_trades_schema)
      /\ NoDup (name <$> get_market_data_schema))
  /\ Forall (fun f => mode f = "REQUIRED" \/ mode f = "NULLABLE")
       (get_daily_summary_schema ++ get_trades_schema
        ++ get_market_data_schema).
Proof.
  split; [repeat split|].
  split; [reflexivity|].
  split; [reflexivity|].
  split; [reflexivity|].
  split.
  - repeat split; apply NoDup_by_decide; vm_compute; reflexivity.
  - apply Forall_forall. intros f Hf.
    apply list_elem_of_In in Hf.
    repeat (destruct Hf as [<-|Hf]; [auto|]). destruct Hf.
Qed.

(** C10: every schema has the column created_at, a NULLABLE TIMESTAMP whose
    default-value expression is CURRENT_TIMESTAMP(), and the strategy column
    of daily_summary has the default-value expression 'MACD_Momentum'. *)
Theorem schemas_default_value_expressions :
  let created_at :=
    mkSchemaField "created_at" "TIMESTAMP" "NULLABLE"
      (Some "CURRENT_TIMESTAMP()") in
  filter (fun f => name f = "created_at") get_daily_summary_schema
    = [created_at]
  /\ filter (fun f => name f = "created_at") get_trades_schema
    = [created_at]
  /\ filter (fun f => name f = "created_at") get_market_data_schema
    = [created_at]
  /\ default_value_expression
       <$> filter (fun f => name f = "strategy") get_daily_summary_schema
     = [Some "'MACD_Momentum'"].
Proof. repeat split; vm_compute; reflexivity. Qed.

(** ** Query texts *)

Lemma string_app_assoc (a b c : string) : (a +:+ b) +:+ c = a +:+ b +:+ c.
Proof.
  induction a as [|x a IH]; [reflexivity|].
  change (String x ((a +:+ b) +:+ c) = String x (a +:+ b +:+ c)).
  by rewrite IH.
Qed.

(** Moving the cut points of a query text around the interpolated names. *)
Lemma query_split (head sp mid tail close op p d : string) :
  head = sp +:+ mid ->
  tail = close +:+ op ->
  head +:+ p +:+ "." +:+ d +:+ tail
  = sp +:+ mid +:+ p +:+ "." +:+ d +:+ close +:+ op.
Proof. intros -> ->. by rewrite !string_app_assoc. Qed.

(** A query text [head +:+ p +:+ "." +:+ d +:+ tail] contains the reference
    to [p.d.table] between back quotes when [head] ends with the opening
    back quote and [tail] starts with the table name and the closing one. *)
Lemma occurs_in_query (head head' tail tail' table p d : string) :
  head = head' +:+ "`" ->
  tail = "." +:+ table +:+ "`" +:+ tail' ->
  occurs_in ("`" +:+ p +:+ "." +:+ d +:+ "." +:+ table +:+ "`")
    (head +:+ p +:+ "." +:+ d +:+ tail).
Proof.
  intros -> ->. exists head', tail'.
  by rewrite !string_app_assoc.
Qed.

(** C7: the daily_performance query selects the daily_summary columns
    date, net_pnl, win_rate, total_trades and spx_daily_change_percent and
    one derived column day_result, a CASE expression that is 'Profitable'
    where net_pnl > 0 holds, else 'Loss' where net_pnl < 0 holds, else
    'Breakeven'; it reads the daily_summary table and ends with
    ORDER BY date DESC. *)
Theorem daily_performance_classifies_by_sign :
  let day_result :=
    ["CASE"; "WHEN"; "net_pnl"; ">"; "0"; "THEN"; "'Profitable'";
             "WHEN"; "net_pnl"; "<"; "0"; "THEN"; "'Loss'";
             "ELSE"; "'Breakeven'"; "END"] in
  exists select_part order_part,
    (forall p d,
       daily_performance_query p d
       = select_part +:+ "FROM `" +:+ p +:+ "." +:+ d +:+ ".daily_summary`"
         +:+ order_part)
    /\ String.words select_part
       = ["SELECT"; "date,"; "net_pnl,"; "win_rate,"; "total_trades,";
          "spx_daily_change_percent,"] ++ day_result ++ ["as"; "day_result"]
    /\ String.words order_part = ["ORDER"; "BY"; "date"; "DESC"]
    /\ Forall (fun c => c ∈ name <$> get_daily_summary_schema)
         ["date"; "net_pnl"; "win_rate"; "total_trades";
          "spx_daily_change_percent"]
    /\ (forall holds,
         searched_case holds day_result
         = Some (if holds "net_pnl" ">" "0" then "'Profitable'"
                 else if holds "net_pnl" "<" "0" then "'Loss'"
                 else "'Breakeven'")).
Proof.
  intros day_result.
  exists (String.substring 0 253 (daily_performance_query "" "")),
         (String.substring 275 28 (daily_performance_query "" "")).
  split; [|split; [|split; [|split]]].
  - intros p d. unfold daily_performance_query.
    apply query_split; vm_compute; reflexivity.
  - vm_compute. reflexivity.
  - vm_compute. reflexivity.
  - repeat constructor.
  - intros holds. subst day_result. simpl.
    destruct (holds "net_pnl" ">" "0"); [reflexivity|].
    destruct (holds "net_pnl" "<" "0"); reflexivity.
Qed.

(** ** The log of a run, for any client *)

Section Logging.
Context {W : Type}.
Variable client : Client W.

Lemma bind_eq {A B} (m : M W A) (k : A -> M W B) (s : proc W) :
  (m ≫= k) s = match m s with
               | (Ok a, s') => k a s'
               | (Raise e, s') => (Raise e, s')
               end.
Proof. reflexivity. Qed.

Lemma bind_ok {A B} (m : M W A) (k : A -> M W B) s a s' :
  m s = (Ok a, s') -> (m ≫= k) s = k a s'.
Proof. intros H. rewrite bind_eq, H. reflexivity. Qed.

Lemma created_tables_app l1 l2 :
  created_tables (l1 ++ l2) = created_tables l1 ++ created_tables l2.
Proof. unfold created_tables. apply omap_app. Qed.

Lemma created_tables_sublist l1 l2 :
  sublist l1 l2 -> sublist (created_tables l1) (created_tables l2).
Proof.
  induction 1 as [|c l1 l2 _ IH|c l1 l2 _ IH]; [constructor|..].
  - destruct c; simpl; try done. by constructor.
  - destruct c; simpl; try done. by constructor.
Qed.

Lemma created_datasets_app l1 l2 :
  created_datasets (l1 ++ l2) = created_datasets l1 ++ created_datasets l2.
Proof. unfold created_datasets. apply omap_app. Qed.

Lemma created_datasets_sublist l1 l2 :
  sublist l1 l2 -> sublist (created_datasets l1) (created_datasets l2).
Proof.
  induction 1 as [|c l1 l2 _ IH|c l1 l2 _ IH]; [constructor|..].
  - destruct c; simpl; try done. by constructor.
  - destruct c; simpl; try done. by constructor.
Qed.

Lemma follows_eq {A} (m : M W A) s1 s2 :
  follows m s1 -> s1 = s2 -> follows m s2.
Proof. by intros H <-. Qed.

Lemma follows_ret {A} (a : A) : follows (mret a : M W A) [].
Proof.
  intros s. exists []. simpl. rewrite app_nil_r.
  repeat split; [constructor|constructor].
Qed.

Lemma follows_print line : follows (print line : M W unit) [].
Proof.
  intros s. exists []. simpl. rewrite app_nil_r.
  repeat split; [constructor|constructor].
Qed.

Lemma follows_bind {A B} (m : M W A) (k : A -> M W B) s1 s2 :
  follows m s1 -> (forall a, follows (k a) s2) -> follows (m ≫= k) (s1 ++ s2).
Proof.
  intros Hm Hk s. rewrite bind_eq.
  destruct (Hm s) as (l1 & Hl1 & Hsub1 & Hend1 & Hok1).
  destruct (m s) as [[a|e] s'] eqn:Em; simpl in *.
  - destruct (Hk a s') as (l2 & Hl2 & Hsub2 & Hend2 & Hok2).
    exists (l1 ++ l2). rewrite Hl2, Hl1, app_assoc, fmap_app.
    split; [done|]. split; [by apply sublist_app|]. split.
    + destruct ((k a s').1) as [b|e]; simpl in *.
      * by apply Forall_app.
      * destruct Hend2 as (l' & c & -> & Hl' & Hc).
        exists (l1 ++ l'), c. rewrite app_assoc.
        split; [done|]. split; [by apply Forall_app|done].
    + intros Hb. rewrite !created_tables_app, Hok1, Hok2; eauto.
  - exists l1. split; [done|]. split; [by apply sublist_inserts_r|].
    split; [done|]. intros [a Ha]; discriminate.
Qed.

Lemma table_id_build_table tid sch pf cf :
  table_id (build_table tid sch pf cf) = tid.
Proof.
  unfold build_table. destruct (truthy_str pf), (truthy_list cf); reflexivity.
Qed.

(** Closes one path through a function whose API outcomes have been
    destructed: names the log segment and checks it against the script. *)
Ltac solve_sublist :=
  simpl; repeat first [apply sublist_nil | apply sublist_skip | apply sublist_cons].

Ltac solve_passes :=
  repeat constructor; unfold passes; simpl; auto.

Ltac solve_ends_with :=
  unfold ends_with;
  lazymatch goal with
  | |- Forall passes _ => solve_passes
  | |- exists l' c, _ = _ ++ [(c, Raise ?e)] /\ _ =>
      first [ eexists [], _; split; [reflexivity|]
            | eexists [_], _; split; [reflexivity|]
            | eexists [_; _], _; split; [reflexivity|] ];
      split; [solve_passes | try reflexivity; destruct e; reflexivity]
  end.

Ltac solve_path :=
  eexists; split; [rewrite <- ?app_assoc; simpl; reflexivity|];
  split; [solve_sublist|];
  split; [solve_ends_with|];
  first [ intros [? ?]; discriminate | intros _; reflexivity ].

Lemma follows_create_table p d n sch pf cf :
  follows (create_table client p d n sch pf cf)
    (object_script (build_table (p +:+ "." +:+ d +:+ "." +:+ n) sch pf cf)).
Proof.
  intros s. unfold create_table, object_script.
  rewrite table_id_build_table.
  generalize (build_table (p +:+ "." +:+ d +:+ "." +:+ n) sch pf cf) as t.
  generalize (p +:+ "." +:+ d +:+ "." +:+ n) as tid.
  intros tid t.
  unfold try_except_NotFound, invoke, print, mbind, M_bind, mret, M_ret.
  simpl.
  destruct (client (GetTable tid) (world s)) as [[[]|[|r1]] w1]; simpl.
  - destruct (client (DeleteTable tid) w1) as [[[]|[|r2]] w2]; simpl.
    + destruct (client (CreateTable t) w2) as [[[]|e3] w3]; simpl; solve_path.
    + destruct (client (CreateTable t) w2) as [[[]|e3] w3]; simpl; solve_path.
    + solve_path.
  - destruct (client (CreateTable t) w1) as [[[]|e3] w3]; simpl; solve_path.
  - solve_path.
Qed.

Lemma follows_create_view p d n q :
  follows (create_view client p d n q)
    (object_script
       (set_view_query q (new_Table (p +:+ "." +:+ d +:+ "." +:+ n) []))).
Proof.
  intros s. unfold create_view, object_script.
  change (table_id (set_view_query q (new_Table ?id []))) with id.
  generalize (set_view_query q (new_Table (p +:+ "." +:+ d +:+ "." +:+ n) []))
    as t.
  generalize (p +:+ "." +:+ d +:+ "." +:+ n) as tid.
  intros tid t.
  unfold try_except_NotFound, invoke, print, mbind, M_bind, mret, M_ret.
  simpl.
  destruct (client (GetTable tid) (world s)) as [[[]|[|r1]] w1]; simpl.
  - destruct (client (DeleteTable tid) w1) as [[[]|[|r2]] w2]; simpl.
    + destruct (client (CreateTable t) w2) as [[[]|e3] w3]; simpl; solve_path.
    + destruct (client (CreateTable t) w2) as [[[]|e3] w3]; simpl; solve_path.
    + solve_path.
  - destruct (client (CreateTable t) w1) as [[[]|e3] w3]; simpl; solve_path.
  - solve_path.
Qed.

Lemma follows_ensure_dataset n id :
  follows (ensure_dataset client n id)
    [GetDataset id; CreateDataset (set_location "US" (new_Dataset id))].
Proof.
  intros s. unfold ensure_dataset.
  generalize (set_location "US" (new_Dataset id)) as ds. intros ds.
  unfold try_except_NotFound, invoke, print, mbind, M_bind, mret, M_ret.
  simpl.
  destruct (client (GetDataset id) (world s)) as [[[]|[|r1]] w1]; simpl.
  - solve_path.
  - destruct (client (CreateDataset ds) w1) as [[[]|e2] w2]; simpl; solve_path.
  - solve_path.
Qed.

Lemma follows_create_views p d :
  follows (create_views client p d)
    (object_script
       (set_view_query (daily_performance_query p d)
          (new_Table (p +:+ "." +:+ d +:+ ".daily_performance") []))
     ++ object_script
       (set_view_query (monthly_summary_query p d)
          (new_Table (p +:+ "." +:+ d +:+ ".monthly_summary") []))
     ++ object_script
       (set_view_query (strike_performance_query p d)
          (new_Table (p +:+ "." +:+ d +:+ ".strike_performance") []))).
Proof.
  unfold create_views. eapply follows_eq.
  - apply follows_bind; [apply follows_print|intros _].
    apply follows_bind; [apply follows_create_view|intros _].
    apply follows_bind; [apply follows_create_view|intros _].
    apply follows_bind; [apply follows_create_view|intros _].
    apply follows_ret.
  - reflexivity.
Qed.

(** Composes the log lemmas along a chain of binds. *)
Ltac follows_chain :=
  repeat first
    [ apply follows_ensure_dataset | apply follows_create_table
    | apply follows_create_views | apply follows_print | apply follows_ret
    | apply follows_bind; [|intros _] ].

Lemma follows_main : follows (main client) main_script.
Proof.
  unfold main. eapply follows_eq; [follows_chain|].
  vm_compute. reflexivity.
Qed.

(** A computation that continues with calls from a script without
    [create_dataset] creates the datasets its first part creates. *)
Lemma bind_created_datasets {A B} (m : M W A) (k : A -> M W B) script s :
  (forall a, follows (k a) script) -> created_datasets script = [] ->
  created_datasets ((log ((m ≫= k) s).2).*1)
  = created_datasets ((log (m s).2).*1).
Proof.
  intros Hk Hnil. rewrite bind_eq. destruct (m s) as [[a|e] s']; [|done].
  simpl. destruct (Hk a s') as (l & -> & Hsub & _).
  apply created_datasets_sublist in Hsub. rewrite Hnil in Hsub.
  apply sublist_nil_r in Hsub.
  by rewrite fmap_app, created_datasets_app, Hsub, app_nil_r.
Qed.

Lemma main_created_datasets s :
  created_datasets ((log (main client s).2).*1)
  = created_datasets
      ((log (ensure_dataset client "spx_trading"
               "galvanic-ripsaw-381707.spx_trading" s).2).*1).
Proof.
  unfold main. apply (bind_created_datasets _ _ objects_script); [|done].
  intros _. eapply follows_eq; [follows_chain|].
  vm_compute. reflexivity.
Qed.

(** The log of a whole run of [main]. *)
Lemma main_log (w : W) :
  let r := run (main client) w in
  sublist ((log r.2).*1) main_script
  /\ ends_with (log r.2) r.1
  /\ (r.1 = Ok tt -> created_tables ((log r.2).*1) = main_objects).
Proof.
  intros r. subst r. unfold run.
  destruct (follows_main (mkProc w [] [])) as (l & -> & Hsub & Hend & Hok).
  simpl. repeat split; [done..|].
  intros Hr. rewrite Hok; [done|by exists tt].
Qed.

Lemma made_by_main (w : W) t :
  t ∈ created_tables ((log (run (main client) w).2).*1) -> t ∈ main_objects.
Proof.
  intros Ht. destruct (main_log w) as (Hsub & _).
  apply created_tables_sublist in Hsub.
  exact (elem_of_sublist _ _ _ Ht Hsub).
Qed.

(** In a list that ends with its only entry outside [P], an entry outside
    [P] is the last one. *)
Lemma last_is_only_exception {A} (P : A -> Prop) (l1 l2 l' : list A) x y :
  l1 ++ x :: l2 = l' ++ [y] -> Forall P l' -> ~ P x ->
  l2 = [] /\ x = y /\ l1 = l'.
Proof.
  intros Heq Hall Hx. destruct l2 as [|z l2 _] using rev_ind.
  - apply app_inj_tail in Heq as [-> ->]. done.
  - exfalso. apply Hx.
    rewrite app_comm_cons, app_assoc in Heq.
    apply app_inj_tail in Heq as [<- _].
    rewrite Forall_app, Forall_cons in Hall. tauto.
Qed.

(** C4: the dataset step of [main], with any client.  When the lookup
    returns, the step returns too and its only call is the lookup: no
    [create_dataset].  When the lookup raises [NotFound], the step makes
    exactly one [create_dataset] call, for the dataset with location "US".
    Nothing else in [main] creates a dataset, so the same counts hold for
    the whole run. *)
Theorem ensure_dataset_creates_only_when_absent n id (w : W) :
  let r := run (ensure_dataset client n id) w in
  let r_main := run (main client) w in
  ((client (GetDataset id) w).1 = Ok tt ->
     r.1 = Ok tt
     /\ (log r.2).*1 = [GetDataset id]
     /\ created_datasets ((log r.2).*1) = [])
  /\ ((client (GetDataset id) w).1 = Raise NotFound ->
     (log r.2).*1
       = [GetDataset id;
          CreateDataset {| dataset_id := id; location := Some "US" |}]
     /\ created_datasets ((log r.2).*1)
       = [{| dataset_id := id; location := Some "US" |}])
  /\ ((client (GetDataset "galvanic-ripsaw-381707.spx_trading") w).1 = Ok tt ->
     created_datasets ((log r_main.2).*1) = [])
  /\ ((client (GetDataset "galvanic-ripsaw-381707.spx_trading") w).1
       = Raise NotFound ->
     created_datasets ((log r_main.2).*1) = [main_dataset]).
Proof.
  intros r r_main. subst r r_main. unfold run.
  rewrite main_created_datasets.
  unfold ensure_dataset, try_except_NotFound, invoke, print, mbind, M_bind.
  simpl. split; [|split; [|split]]; intros H.
  all: destruct (client (GetDataset _) w) as [r1 w1]; simpl in H; subst r1;
    simpl; try done.
  all: destruct (client (CreateDataset _) w1) as [[[]|e2] w2]; done.
Qed.

(** *** Errors the script catches *)

Lemma logs_bind {A B} (P Q R : list event -> Prop)
    (m : M W A) (k : A -> M W B) :
  logs P m -> (forall a, logs Q (k a)) ->
  (forall l1, P l1 -> R l1) ->
  (forall l1 l2, P l1 -> Q l2 -> R (l1 ++ l2)) ->
  logs R (m ≫= k).
Proof.
  intros Hm Hk HR1 HR2 s. rewrite bind_eq.
  destruct (Hm s) as (l1 & Hl1 & HP).
  destruct (m s) as [[a|e] s']; simpl in *.
  - destruct (Hk a s') as (l2 & Hl2 & HQ).
    exists (l1 ++ l2). rewrite Hl2, Hl1, app_assoc. auto.
  - exists l1. auto.
Qed.

Lemma resumes_app l1 l2 : resumes l1 -> resumes l2 -> resumes (l1 ++ l2).
Proof.
  intros H1 H2 a c e b Heq Hc.
  apply app_eq_inv in Heq as [(k & -> & Hk)|(k & -> & Hk)].
  - destruct k as [|x k]; simpl in Hk.
    + subst l2. by apply (H2 [] c e b).
    + injection Hk as <- ->.
      destruct (H1 a c e k eq_refl Hc) as (c' & o & l3 & -> & Ha).
      exists c', o, (l3 ++ l2). done.
  - by apply (H2 k c e b).
Qed.

Lemma resumes_quiet {A} (m : M W A) :
  (forall s, log (m s).2 = log s) -> logs resumes m.
Proof.
  intros Hm s. exists []. rewrite Hm, app_nil_r. split; [done|].
  intros [|? ?] ? ? ? ?; done.
Qed.

(** Checks a log segment whose entries are known: each entry that raised
    is either not caught or followed by its create. *)
Ltac solve_resumes :=
  let H := fresh in
  let Hc := fresh in
  intros [|? [|? [|? [|? ?]]]] ? ? ? H Hc; simplify_eq/=;
  try discriminate Hc;
  try (match type of Hc with context [caught _ ?e] => destruct e end;
       discriminate Hc);
  (eexists _, _, _; split; [reflexivity|]; done).

Ltac name_resumed :=
  eexists; split; [rewrite <- ?app_assoc; simpl; reflexivity|].

Lemma resumes_create_table p d n sch pf cf :
  logs resumes (create_table client p d n sch pf cf).
Proof.
  intros s. unfold create_table.
  pose proof (table_id_build_table (p +:+ "." +:+ d +:+ "." +:+ n) sch pf cf)
    as Ht.
  revert Ht.
  generalize (build_table (p +:+ "." +:+ d +:+ "." +:+ n) sch pf cf) as t.
  generalize (p +:+ "." +:+ d +:+ "." +:+ n) as tid. intros tid t Ht.
  unfold try_except_NotFound, invoke, print, mbind, M_bind, mret, M_ret.
  simpl.
  destruct (client (GetTable tid) (world s)) as [[[]|[|r1]] w1]; simpl.
  - destruct (client (DeleteTable tid) w1) as [[[]|[|r2]] w2]; simpl.
    + destruct (client (CreateTable t) w2) as [[[]|e3] w3]; simpl;
        name_resumed; solve_resumes.
    + destruct (client (CreateTable t) w2) as [[[]|e3] w3]; simpl;
        name_resumed; solve_resumes.
    + name_resumed; solve_resumes.
  - destruct (client (CreateTable t) w1) as [[[]|e3] w3]; simpl;
      name_resumed; solve_resumes.
  - name_resumed; solve_resumes.
Qed.

Lemma resumes_create_view p d n q :
  logs resumes (create_view client p d n q).
Proof.
  intros s. unfold create_view.
  assert (Ht : table_id
                 (set_view_query q
                    (new_Table (p +:+ "." +:+ d +:+ "." +:+ n) []))
               = p +:+ "." +:+ d +:+ "." +:+ n) by reflexivity.
  revert Ht.
  generalize (set_view_query q (new_Table (p +:+ "." +:+ d +:+ "." +:+ n) []))
    as t.
  generalize (p +:+ "." +:+ d +:+ "." +:+ n) as tid. intros tid t Ht.
  unfold try_except_NotFound, invoke, print, mbind, M_bind, mret, M_ret.
  simpl.
  destruct (client (GetTable tid) (world s)) as [[[]|[|r1]] w1]; simpl.
  - destruct (client (DeleteTable tid) w1) as [[[]|[|r2]] w2]; simpl.
    + destruct (client (CreateTable t) w2) as [[[]|e3] w3]; simpl;
        name_resumed; solve_resumes.
    + destruct (client (CreateTable t) w2) as [[[]|e3] w3]; simpl;
        name_resumed; solve_resumes.
    + name_resumed; solve_resumes.
  - destruct (client (CreateTable t) w1) as [[[]|e3] w3]; simpl;
      name_resumed; solve_resumes.
  - name_resumed; solve_resumes.
Qed.

Lemma resumes_ensure_dataset n id :
  logs resumes (ensure_dataset client n id).
Proof.
  intros s. unfold ensure_dataset.
  unfold try_except_NotFound, invoke, print, mbind, M_bind, mret, M_ret.
  simpl.
  destruct (client (GetDataset id) (world s)) as [[[]|[|r1]] w1]; simpl.
  - name_resumed; solve_resumes.
  - destruct (client (CreateDataset _) w1) as [[[]|e2] w2]; simpl;
      name_resumed; solve_resumes.
  - name_resumed; solve_resumes.
Qed.

Lemma resumes_main : logs resumes (main client).
Proof.
  unfold main, create_views.
  repeat first
    [ apply resumes_ensure_dataset | apply resumes_create_table
    | apply resumes_create_view | apply resumes_quiet; reflexivity
    | eapply logs_bind;
        [ | intros _ | exact (fun _ H => H) | exact resumes_app ] ].
Qed.

(** C5, as the code has it: with any client, an API error that the script
    does not catch ends the run on the spot.  The errors it catches are
    [NotFound] raised by a lookup or by the delete that shares the lookup's
    [try] block; any other error of a lookup or a delete, and any error of
    a create, is the last entry of the log and the outcome of [main]: no
    later call of the sequence is made, and none that would undo an earlier
    step.  The calls made up to the failing one are taken in order from the
    fixed sequence dataset, daily_summary, trades, market_data_archive,
    daily_performance, monthly_summary, strike_performance.  An error the
    script catches does not end the run: the next call is the create that
    answers it.  In particular, when the lookup of [create_table] or
    [create_view] returns and the delete raises [NotFound], the function
    makes the create call next, and its outcome is that of the create. *)
Theorem uncaught_api_error_aborts_run (w : W) :
  (forall l1 c e l2,
     log (run (main client) w).2 = l1 ++ (c, Raise e) :: l2 ->
     caught c e = false ->
     l2 = []
     /\ (run (main client) w).1 = Raise e
     /\ sublist (l1.*1 ++ [c]) main_script)
  /\ (forall l1 c e l2,
       log (run (main client) w).2 = l1 ++ (c, Raise e) :: l2 ->
       caught c e = true ->
       exists c' o l3, l2 = (c', o) :: l3 /\ answers c c')
  /\ (forall p d n sch pf cf q w1 w2,
       let tid := p +:+ "." +:+ d +:+ "." +:+ n in
       let t := build_table tid sch pf cf in
       let v := set_view_query q (new_Table tid []) in
       let rt := run (create_table client p d n sch pf cf) w in
       let rv := run (create_view client p d n q) w in
       client (GetTable tid) w = (Ok tt, w1) ->
       client (DeleteTable tid) w1 = (Raise NotFound, w2) ->
       (log rt.2
        = [(GetTable tid, Ok tt); (DeleteTable tid, Raise NotFound);
           (CreateTable t, (client (CreateTable t) w2).1)]
        /\ rt.1 = match (client (CreateTable t) w2).1 with
                  | Ok _ => Ok true
                  | Raise e => Raise e
                  end)
       /\ (log rv.2
           = [(GetTable tid, Ok tt); (DeleteTable tid, Raise NotFound);
              (CreateTable v, (client (CreateTable v) w2).1)]
           /\ rv.1 = match (client (CreateTable v) w2).1 with
                     | Ok _ => Ok true
                     | Raise e => Raise e
                     end)).
Proof.
  split; [|split].
  - intros l1 c e l2 Hlog Hc. destruct (main_log w) as (Hsub & Hend & _).
    assert (Hx : ~ passes (c, Raise e)).
    { unfold passes; simpl. rewrite Hc. discriminate. }
    destruct ((run (main client) w).1) as [[]|e'] eqn:Hr; simpl in Hend.
    + exfalso. rewrite Hlog, Forall_app, Forall_cons in Hend. tauto.
    + destruct Hend as (l' & c' & Hl' & Hall & _).
      rewrite Hlog in Hl'.
      destruct (last_is_only_exception passes _ _ _ _ _ Hl' Hall Hx)
        as (-> & Hxy & ->).
      injection Hxy as -> ->.
      rewrite Hlog, fmap_app in Hsub. done.
  - intros l1 c e l2 Hlog Hc. unfold run in Hlog.
    destruct (resumes_main (mkProc w [] [])) as (l & Hl & Hres).
    rewrite Hl in Hlog. simpl in Hlog. by apply (Hres l1 c e l2).
  - intros p d n sch pf cf q w1 w2 tid t v rt rv Hget Hdel. subst rt rv.
    unfold run, create_table, create_view. fold tid. fold t. fold v.
    unfold try_except_NotFound, invoke, print, mbind, M_bind, mret, M_ret.
    simpl. rewrite Hget. simpl. rewrite Hdel. simpl.
    destruct (client (CreateTable t) w2) as [[[]|e3] w3],
             (client (CreateTable v) w2) as [[[]|e4] w4]; done.
Qed.

(** [main] raises only what an API call raised and the script does not
    catch. *)
Lemma main_raises_only_api_errors (w : W) e :
  (run (main client) w).1 = Raise e ->
  exists l1 c, log (run (main client) w).2 = l1 ++ [(c, Raise e)]
               /\ caught c e = false.
Proof.
  intros Hr. destruct (main_log w) as (_ & Hend & _).
  rewrite Hr in Hend. destruct Hend as (l' & c & Hl & _ & Hc). eauto.
Qed.

(** C6: with any client, every table (not view) description that [main]
    hands to the client is partitioned by day on the column date and
    carries the clustering columns declared for it; a run that completes
    has handed over exactly the three tables, in order; and [create_table]
    puts the partition column and the clustering list it is given on the
    description it hands over. *)
Theorem tables_partitioned_by_date_and_clustered (w : W) :
  let r := run (main client) w in
  let made := created_tables ((log r.2).*1) in
  (forall t, t ∈ made -> view_query t = None ->
     time_partitioning t = Some (mkTimePartitioning DAY "date")
     /\ (table_id t, clustering_fields t) ∈
          [("galvanic-ripsaw-381707.spx_trading.daily_summary",
            Some ["date"; "strategy"]);
           ("galvanic-ripsaw-381707.spx_trading.trades",
            Some ["date"; "symbol"; "trade_sequence"]);
           ("galvanic-ripsaw-381707.spx_trading.market_data_archive",
            Some ["date"; "timestamp"])])
  /\ (r.1 = Ok tt ->
      table_id <$> filter (fun t => view_query t = None) made
      = ["galvanic-ripsaw-381707.spx_trading.daily_summary";
         "galvanic-ripsaw-381707.spx_trading.trades";
         "galvanic-ripsaw-381707.spx_trading.market_data_archive"])
  /\ (forall p d n sch a pf c cf t,
      t ∈ created_tables
            ((log (run (create_table client p d n sch
                          (Some (String a pf)) (Some (c :: cf))) w).2).*1) ->
      t = {| table_id := p +:+ "." +:+ d +:+ "." +:+ n;
             schema := sch;
             time_partitioning := Some (mkTimePartitioning DAY (String a pf));
             clustering_fields := Some (c :: cf);
             view_query := None |}).
Proof.
  intros r made. subst made r. split; [|split].
  - intros t Ht Hv. apply made_by_main in Ht.
    apply list_elem_of_In in Ht. simpl in Ht.
    destruct Ht as [<-|[<-|[<-|[<-|[<-|[<-|[]]]]]]]; try discriminate Hv.
    all: split; [reflexivity|apply list_elem_of_In; simpl; auto 10].
  - intros Hr. destruct (main_log w) as (_ & _ & Hok).
    rewrite (Hok Hr). reflexivity.
  - intros p d n sch a pf c cf t Ht. unfold run in Ht.
    destruct (follows_create_table p d n sch (Some (String a pf))
                (Some (c :: cf)) (mkProc w [] [])) as (l & Hl & Hsub & _).
    rewrite Hl in Ht. simpl in Ht.
    apply created_tables_sublist in Hsub.
    apply (elem_of_sublist _ _ _ Ht) in Hsub.
    apply list_elem_of_In in Hsub. simpl in Hsub.
    destruct Hsub as [<-|[]]. reflexivity.
Qed.

(** C8: for any project and dataset name, each view query contains the
    back-quoted reference project.dataset.table of its source table:
    daily_summary for daily_performance and monthly_summary, trades for
    strike_performance.  With the names fixed in [main] that reference is
    the only back-quoted name of each query, and with any client every view
    [main] hands over carries the query built from those two names: nothing
    outside the script enters the text. *)
Theorem view_queries_reference_their_source_table (w : W) :
  (forall p d,
     occurs_in ("`" +:+ p +:+ "." +:+ d +:+ "." +:+ "daily_summary" +:+ "`")
       (daily_performance_query p d)
     /\ occurs_in ("`" +:+ p +:+ "." +:+ d +:+ "." +:+ "daily_summary" +:+ "`")
       (monthly_summary_query p d)
     /\ occurs_in ("`" +:+ p +:+ "." +:+ d +:+ "." +:+ "trades" +:+ "`")
       (strike_performance_query p d))
  /\ (quoted_names (daily_performance_query "galvanic-ripsaw-381707" "spx_trading")
       = ["`galvanic-ripsaw-381707.spx_trading.daily_summary`"]
     /\ quoted_names (monthly_summary_query "galvanic-ripsaw-381707" "spx_trading")
       = ["`galvanic-ripsaw-381707.spx_trading.daily_summary`"]
     /\ quoted_names (strike_performance_query "galvanic-ripsaw-381707" "spx_trading")
       = ["`galvanic-ripsaw-381707.spx_trading.trades`"])
  /\ (forall t q,
       t ∈ created_tables ((log (run (main client) w).2).*1) ->
       view_query t = Some q ->
       (table_id t, q) ∈
         [("galvanic-ripsaw-381707.spx_trading.daily_performance",
           daily_performance_query "galvanic-ripsaw-381707" "spx_trading");
          ("galvanic-ripsaw-381707.spx_trading.monthly_summary",
           monthly_summary_query "galvanic-ripsaw-381707" "spx_trading");
          ("galvanic-ripsaw-381707.spx_trading.strike_performance",
           strike_performance_query "galvanic-ripsaw-381707" "spx_trading")]).
Proof.
  split; [|split].
  - intros p d.
    unfold daily_performance_query, monthly_summary_query,
      strike_performance_query.
    repeat split.
    all: lazymatch goal with
         | |- occurs_in (_ +:+ _ +:+ _ +:+ _ +:+ _ +:+ ?tbl +:+ _)
                (?h +:+ _ +:+ _ +:+ _ +:+ ?t) =>
             let n := eval vm_compute in (String.length h - 1) in
             let j := eval vm_compute in (String.length tbl + 2) in
             let k := eval vm_compute in (String.length t) in
             apply (occurs_in_query h (String.substring 0 n h) t
                      (String.substring j k t))
         end.
    all: vm_compute; reflexivity.
  - repeat split; vm_compute; reflexivity.
  - intros t q Ht Hq. apply made_by_main in Ht.
    apply list_elem_of_In in Ht. simpl in Ht.
    destruct Ht as [<-|[<-|[<-|[<-|[<-|[<-|[]]]]]]]; try discriminate Hq.
    all: injection Hq as <-; apply list_elem_of_In; simpl; auto 10.
Qed.

(** C9: the first column of every schema is date, a REQUIRED DATE; and
    with any client, every partitioned table description [main] hands over
    is partitioned on date, has date as the first of its clustering columns
    and as the first column of its schema.  A run that completes has handed
    over three of them. *)
Theorem partition_field_leads_clustering_and_schema (w : W) :
  let r := run (main client) w in
  let made := created_tables ((log r.2).*1) in
  let date := mkSchemaField "date" "DATE" "REQUIRED" None in
  (head get_daily_summary_schema = Some date
   /\ head get_trades_schema = Some date
   /\ head get_market_data_schema = Some date)
  /\ (forall t tp, t ∈ made -> time_partitioning t = Some tp ->
       field tp = "date"
       /\ (exists rest, clustering_fields t = Some (field tp :: rest))
       /\ head (schema t) = Some date)
  /\ (r.1 = Ok tt ->
      schema <$> filter (fun t => is_Some (time_partitioning t)) made
      = [get_daily_summary_schema; get_trades_schema;
         get_market_data_schema]).
Proof.
  intros r made date. subst made r date. split; [|split].
  - repeat split.
  - intros t tp Ht Htp. apply made_by_main in Ht.
    apply list_elem_of_In in Ht. simpl in Ht.
    destruct Ht as [<-|[<-|[<-|[<-|[<-|[<-|[]]]]]]]; try discriminate Htp.
    all: injection Htp as <-; simpl; eauto.
  - intros Hr. destruct (main_log w) as (_ & _ & Hok).
    rewrite (Hok Hr). reflexivity.
Qed.

End Logging.

(** ** The script on the reference warehouse *)

Section Reference.

Implicit Types (ds : gmap string Dataset) (os : gmap string stored).

(** [create_table] on a warehouse served without interference. *)
Lemma create_table_quiet p d n sch pf cf (s : proc warehouse) :
  schedule (world s) = [] ->
  let tid := p +:+ "." +:+ d +:+ "." +:+ n in
  let t := build_table tid sch pf cf in
  exists s',
    create_table bq_client p d n sch pf cf s = (Ok true, s')
    /\ world s' = mkWarehouse (datasets (world s))
                    (<[tid := mkStored t []]> (objects (world s))) []
    /\ log s' = log s ++
         match objects (world s) !! tid with
         | Some _ => [(GetTable tid, Ok tt); (DeleteTable tid, Ok tt);
                      (CreateTable t, Ok tt)]
         | None => [(GetTable tid, Raise NotFound); (CreateTable t, Ok tt)]
         end.
Proof.
  intros Hq tid t. unfold create_table. fold tid. fold t.
  assert (Ht : table_id t = tid) by apply table_id_build_table.
  clearbody t tid.
  destruct s as [[ds os sched] lg out]; simpl in *; subst sched.
  unfold try_except_NotFound, invoke, print, mbind, M_bind, mret, M_ret,
    bq_client; simpl.
  destruct (os !! tid) as [old|] eqn:Hold; simpl.
  - rewrite ?Hold; simpl. rewrite Ht, lookup_delete_eq; simpl.
    eexists; split; [reflexivity|]; simpl.
    rewrite insert_delete_eq, <- !app_assoc. done.
  - rewrite Ht, Hold; simpl.
    eexists; split; [reflexivity|]; simpl.
    rewrite <- !app_assoc. done.
Qed.

(** [create_view] on a warehouse served without interference. *)
Lemma create_view_quiet p d n q (s : proc warehouse) :
  schedule (world s) = [] ->
  let tid := p +:+ "." +:+ d +:+ "." +:+ n in
  let t := set_view_query q (new_Table tid []) in
  exists s',
    create_view bq_client p d n q s = (Ok true, s')
    /\ world s' = mkWarehouse (datasets (world s))
                    (<[tid := mkStored t []]> (objects (world s))) []
    /\ log s' = log s ++
         match objects (world s) !! tid with
         | Some _ => [(GetTable tid, Ok tt); (DeleteTable tid, Ok tt);
                      (CreateTable t, Ok tt)]
         | None => [(GetTable tid, Raise NotFound); (CreateTable t, Ok tt)]
         end.
Proof.
  intros Hq tid t. unfold create_view. fold tid. fold t.
  assert (Ht : table_id t = tid) by reflexivity.
  clearbody t tid.
  destruct s as [[ds os sched] lg out]; simpl in *; subst sched.
  unfold try_except_NotFound, invoke, print, mbind, M_bind, mret, M_ret,
    bq_client; simpl.
  destruct (os !! tid) as [old|] eqn:Hold; simpl.
  - rewrite ?Hold; simpl. rewrite Ht, lookup_delete_eq; simpl.
    eexists; split; [reflexivity|]; simpl.
    rewrite insert_delete_eq, <- !app_assoc. done.
  - rewrite Ht, Hold; simpl.
    eexists; split; [reflexivity|]; simpl.
    rewrite <- !app_assoc. done.
Qed.

Lemma ensure_dataset_quiet n (s : proc warehouse) :
  schedule (world s) = [] ->
  exists s',
    ensure_dataset bq_client n (dataset_id main_dataset) s = (Ok tt, s')
    /\ world s' = mkWarehouse (ensured (datasets (world s)))
                    (objects (world s)) [].
Proof.
  intros Hq. unfold ensure_dataset, ensured.
  destruct s as [[ds os sched] lg out]; simpl in *; subst sched.
  unfold try_except_NotFound, invoke, print, mbind, M_bind, mret, M_ret,
    bq_client; simpl.
  destruct (ds !! _) as [old|] eqn:Hold; simpl.
  - eexists; split; reflexivity.
  - rewrite Hold; simpl. eexists; split; reflexivity.
Qed.

Lemma create_views_quiet p d (s : proc warehouse) :
  schedule (world s) = [] ->
  exists s',
    create_views bq_client p d s = (Ok tt, s')
    /\ world s' = mkWarehouse (datasets (world s))
         (install
            (set_view_query (strike_performance_query p d)
               (new_Table (p +:+ "." +:+ d +:+ "." +:+ "strike_performance") []))
            (install
               (set_view_query (monthly_summary_query p d)
                  (new_Table (p +:+ "." +:+ d +:+ "." +:+ "monthly_summary") []))
               (install
                  (set_view_query (daily_performance_query p d)
                     (new_Table
                        (p +:+ "." +:+ d +:+ "." +:+ "daily_performance") []))
                  (objects (world s))))) [].
Proof.
  intros Hq. unfold create_views.
  rewrite (bind_ok (print _) _ s tt _ eq_refl).
  destruct (create_view_quiet p d "daily_performance"
              (daily_performance_query p d)
              (mkProc (world s) (log s) (stdout s ++ ["Creating views..."])))
    as (s1 & E1 & W1 & _); [done|].
  rewrite (bind_ok _ _ _ _ _ E1).
  destruct (create_view_quiet p d "monthly_summary"
              (monthly_summary_query p d) s1) as (s2 & E2 & W2 & _);
    [by rewrite W1|].
  rewrite (bind_ok _ _ _ _ _ E2).
  destruct (create_view_quiet p d "strike_performance"
              (strike_performance_query p d) s2) as (s3 & E3 & W3 & _);
    [by rewrite W2|].
  rewrite (bind_ok _ _ _ _ _ E3).
  exists s3. split; [reflexivity|].
  rewrite W3, W2, W1. reflexivity.
Qed.

(** [main] on a warehouse served without interference: it returns, and
    the warehouse then holds the ensured dataset and the six objects. *)
Lemma main_quiet (s : proc warehouse) :
  schedule (world s) = [] ->
  exists s',
    main bq_client s = (Ok tt, s')
    /\ world s' = mkWarehouse (ensured (datasets (world s)))
                    (provisioned (objects (world s))) [].
Proof.
  intros Hq. unfold main.
  destruct (ensure_dataset_quiet "spx_trading" s Hq) as (s1 & E1 & W1).
  rewrite (bind_ok _ _ _ _ _ E1).
  destruct (create_table_quiet "galvanic-ripsaw-381707" "spx_trading"
              "daily_summary" get_daily_summary_schema (Some "date")
              (Some ["date"; "strategy"]) s1) as (s2 & E2 & W2 & _);
    [by rewrite W1|].
  rewrite (bind_ok _ _ _ _ _ E2).
  destruct (create_table_quiet "galvanic-ripsaw-381707" "spx_trading"
              "trades" get_trades_schema (Some "date")
              (Some ["date"; "symbol"; "trade_sequence"]) s2)
    as (s3 & E3 & W3 & _); [by rewrite W2|].
  rewrite (bind_ok _ _ _ _ _ E3).
  destruct (create_table_quiet "galvanic-ripsaw-381707" "spx_trading"
              "market_data_archive" get_market_data_schema (Some "date")
              (Some ["date"; "timestamp"]) s3)
    as (s4 & E4 & W4 & _); [by rewrite W3|].
  rewrite (bind_ok _ _ _ _ _ E4).
  destruct (create_views_quiet "galvanic-ripsaw-381707" "spx_trading" s4)
    as (s5 & E5 & W5); [by rewrite W4|].
  rewrite (bind_ok _ _ _ _ _ E5).
  eexists. split; [reflexivity|]. simpl.
  rewrite W5, W4, W3, W2, W1. reflexivity.
Qed.

Lemma provisioned_lookup os t :
  t ∈ main_objects ->
  provisioned os !! table_id t = Some (mkStored t []).
Proof.
  intros Ht. unfold provisioned, install.
  apply list_elem_of_In in Ht.
  repeat (destruct Ht as [<-|Ht];
          [repeat first [apply lookup_insert_eq
                        | rewrite lookup_insert_ne by discriminate]|]).
  destruct Ht.
Qed.

Lemma install_provisioned os t :
  t ∈ main_objects -> install t (provisioned os) = provisioned os.
Proof.
  intros Ht. unfold install at 1. apply insert_id.
  by apply provisioned_lookup.
Qed.

Lemma provisioned_idem os : provisioned (provisioned os) = provisioned os.
Proof.
  unfold provisioned at 1.
  rewrite !install_provisioned; [done|unfold main_objects; set_solver..].
Qed.

Lemma ensured_idem ds : ensured (ensured ds) = ensured ds.
Proof.
  unfold ensured. destruct (ds !! _) eqn:E.
  - by rewrite E.
  - by rewrite lookup_insert_eq.
Qed.

(** C2: on a warehouse served without interference, running [main] twice
    in a row succeeds both times and leaves, for each of the three tables
    and three views, the same stored object as a single run: the object
    described by the script, with no rows.  The whole warehouse is the same
    after the second run as after the first. *)
Theorem rerun_is_idempotent ds os :
  let once := run (main bq_client) (mkWarehouse ds os []) in
  let twice := run (main bq_client) (world once.2) in
  once.1 = Ok tt /\ twice.1 = Ok tt
  /\ Forall (fun t =>
        objects (world once.2) !! table_id t = Some (mkStored t [])
        /\ objects (world twice.2) !! table_id t
           = objects (world once.2) !! table_id t)
       main_objects
  /\ objects (world twice.2) = objects (world once.2)
  /\ datasets (world twice.2) = datasets (world once.2)
  /\ schema <$> main_objects
     = [get_daily_summary_schema; get_trades_schema; get_market_data_schema;
        []; []; []]
  /\ view_query <$> main_objects
     = [None; None; None;
        Some (daily_performance_query "galvanic-ripsaw-381707" "spx_trading");
        Some (monthly_summary_query "galvanic-ripsaw-381707" "spx_trading");
        Some (strike_performance_query "galvanic-ripsaw-381707" "spx_trading")].
Proof.
  intros once twice. subst twice once. unfold run.
  destruct (main_quiet (mkProc (mkWarehouse ds os []) [] []) eq_refl)
    as (s1 & E1 & W1).
  rewrite E1. simpl.
  destruct (main_quiet (mkProc (world s1) [] [])) as (s2 & E2 & W2).
  { simpl. by rewrite W1. }
  rewrite E2. simpl in *. rewrite W2, W1. simpl.
  rewrite provisioned_idem, ensured_idem.
  repeat split; try done.
  apply Forall_forall. intros t Ht. split; [|done].
  by apply provisioned_lookup.
Qed.

(** C3: on a warehouse served without interference, [create_table] and
    [create_view] look the target up; when an object is stored under the
    target name they delete it and then create the new one, and when none
    is they create the new one directly, with no delete.  Either way the
    call succeeds and the object stored under the name afterwards is the
    new description with no rows: nothing of the old one is left, and the
    other objects are as before.  With any client at all, a lookup that
    returns is followed by the delete, before any create, and a lookup that
    raises [NotFound] is followed by the create alone. *)
Theorem create_replaces_existing_object ds os p d n sch pf cf q :
  let w := mkWarehouse ds os [] in
  let tid := p +:+ "." +:+ d +:+ "." +:+ n in
  let t := build_table tid sch pf cf in
  let v := set_view_query q (new_Table tid []) in
  let rt := run (create_table bq_client p d n sch pf cf) w in
  let rv := run (create_view bq_client p d n q) w in
  (rt.1 = Ok true
   /\ objects (world rt.2) = <[tid := mkStored t []]> os
   /\ objects (world rt.2) !! tid = Some (mkStored t [])
   /\ log rt.2 =
        match os !! tid with
        | Some _ => [(GetTable tid, Ok tt); (DeleteTable tid, Ok tt);
                     (CreateTable t, Ok tt)]
        | None => [(GetTable tid, Raise NotFound); (CreateTable t, Ok tt)]
        end)
  /\ (rv.1 = Ok true
     /\ objects (world rv.2) = <[tid := mkStored v []]> os
     /\ objects (world rv.2) !! tid = Some (mkStored v [])
     /\ log rv.2 =
          match os !! tid with
          | Some _ => [(GetTable tid, Ok tt); (DeleteTable tid, Ok tt);
                       (CreateTable v, Ok tt)]
          | None => [(GetTable tid, Raise NotFound); (CreateTable v, Ok tt)]
          end)
  /\ (forall W (client : Client W) (w0 : W),
       let lt := (log (run (create_table client p d n sch pf cf) w0).2).*1 in
       let lv := (log (run (create_view client p d n q) w0).2).*1 in
       match (client (GetTable tid) w0).1 with
       | Ok _ =>
           take 2 lt = [GetTable tid; DeleteTable tid]
           /\ take 2 lv = [GetTable tid; DeleteTable tid]
       | Raise NotFound =>
           lt = [GetTable tid; CreateTable t]
           /\ lv = [GetTable tid; CreateTable v]
       | Raise (ApiError _) => lt = [GetTable tid] /\ lv = [GetTable tid]
       end).
Proof.
  intros w tid t v rt rv. subst rt rv. unfold run. split; [|split].
  3: {
    intros W client w0. cbv zeta.
    unfold run, create_table, create_view. fold tid. fold t. fold v.
    unfold try_except_NotFound, invoke, print, mbind, M_bind, mret, M_ret.
    simpl.
    destruct (client (GetTable tid) w0) as [[[]|[|r1]] w1]; simpl.
    - destruct (client (DeleteTable tid) w1) as [[[]|[|r2]] w2]; simpl;
        repeat match goal with
               | |- context [client (CreateTable ?x) ?y] =>
                   destruct (client (CreateTable x) y) as [[[]|?] ?]; simpl
               end; done.
    - repeat match goal with
             | |- context [client (CreateTable ?x) ?y] =>
                 destruct (client (CreateTable x) y) as [[[]|?] ?]; simpl
             end; done.
    - done. }
  - destruct (create_table_quiet p d n sch pf cf (mkProc w [] []) eq_refl)
      as (s' & E & Hw & Hl).
    rewrite E. simpl in *. rewrite Hw, Hl. simpl.
    by rewrite lookup_insert_eq.
  - destruct (create_view_quiet p d n q (mkProc w [] []) eq_refl)
      as (s' & E & Hw & Hl).
    rewrite E. simpl in *. rewrite Hw, Hl. simpl.
    by rewrite lookup_insert_eq.
Qed.

End Reference.

(** ** Sample runs *)

(** The dataset step on a warehouse that has the dataset and on one that
    does not. *)
Lemma ensure_dataset_creates_only_when_absent_witness :
  (created_datasets
     ((log (run (ensure_dataset bq_client "spx_trading"
                   "galvanic-ripsaw-381707.spx_trading")
              warehouse_with_dataset).2).*1) = []
   /\ created_datasets
        ((log (run (main bq_client) warehouse_with_dataset).2).*1) = [])
  /\ (created_datasets
        ((log (run (ensure_dataset bq_client "spx_trading"
                      "galvanic-ripsaw-381707.spx_trading")
                 empty_warehouse).2).*1) = [main_dataset]
      /\ created_datasets
           ((log (run (main bq_client) empty_warehouse).2).*1)
         = [main_dataset]).
Proof.
  destruct (ensure_dataset_creates_only_when_absent bq_client "spx_trading"
              "galvanic-ripsaw-381707.spx_trading" warehouse_with_dataset)
    as (H1 & _ & H3 & _).
  destruct (ensure_dataset_creates_only_when_absent bq_client "spx_trading"
              "galvanic-ripsaw-381707.spx_trading" empty_warehouse)
    as (_ & H2 & _ & H4).
  split; split.
  - apply H1. vm_compute. reflexivity.
  - apply H3. vm_compute. reflexivity.
  - apply H2. vm_compute. reflexivity.
  - apply H4. vm_compute. reflexivity.
Defined.

(** The run on the warehouse that refuses to create the trades table: the
    refusal is the sixth and last call and the outcome of the run.  The run
    on [racing_warehouse]: the delete that raises [NotFound] is followed by
    the creation of the daily_summary table. *)
Lemma uncaught_api_error_aborts_run_witness :
  (log (run (main bq_client) forbidding_warehouse).2
   = take 5 (log (run (main bq_client) forbidding_warehouse).2)
     ++ (CreateTable trades_table, Raise (ApiError "Forbidden")) :: []
   /\ caught (CreateTable trades_table) (ApiError "Forbidden") = false
   /\ (run (main bq_client) forbidding_warehouse).1
      = Raise (ApiError "Forbidden"))
  /\ (log (run (main bq_client) racing_warehouse).2
      = take 3 (log (run (main bq_client) racing_warehouse).2)
        ++ (DeleteTable "galvanic-ripsaw-381707.spx_trading.daily_summary",
            Raise NotFound)
           :: drop 4 (log (run (main bq_client) racing_warehouse).2)
      /\ exists c' o l3,
          drop 4 (log (run (main bq_client) racing_warehouse).2)
          = (c', o) :: l3
          /\ answers
               (DeleteTable "galvanic-ripsaw-381707.spx_trading.daily_summary")
               c').
Proof.
  assert (Hlog :
    log (run (main bq_client) forbidding_warehouse).2
    = take 5 (log (run (main bq_client) forbidding_warehouse).2)
      ++ (CreateTable trades_table, Raise (ApiError "Forbidden")) :: []).
  { vm_compute. reflexivity. }
  assert (Hrace :
    log (run (main bq_client) racing_warehouse).2
    = take 3 (log (run (main bq_client) racing_warehouse).2)
      ++ (DeleteTable "galvanic-ripsaw-381707.spx_trading.daily_summary",
          Raise NotFound)
         :: drop 4 (log (run (main bq_client) racing_warehouse).2)).
  { vm_compute. reflexivity. }
  split.
  - split; [exact Hlog|]. split; [reflexivity|].
    destruct (uncaught_api_error_aborts_run bq_client forbidding_warehouse)
      as (H & _).
    apply (H _ _ _ _ Hlog). reflexivity.
  - split; [exact Hrace|].
    destruct (uncaught_api_error_aborts_run bq_client racing_warehouse)
      as (_ & H & _).
    apply (H _ _ _ _ Hrace). reflexivity.
Defined.

(** C5 as stated fails: on [racing_warehouse] the fourth call of the run,
    the delete of the old daily_summary table, raises [NotFound]; this error
    during delete does not end the run, which makes eleven more calls and
    returns.  So it is not true that every API error except [NotFound] out
    of a lookup is the last call of the run and its outcome. *)
Lemma delete_not_found_does_not_abort :
  log (run (main bq_client) racing_warehouse).2 !! 3
  = Some (DeleteTable "galvanic-ripsaw-381707.spx_trading.daily_summary",
          Raise NotFound)
  /\ length (log (run (main bq_client) racing_warehouse).2) = 15
  /\ (run (main bq_client) racing_warehouse).1 = Ok tt
  /\ ~ (forall (w : warehouse) l1 c e l2,
         log (run (main bq_client) w).2 = l1 ++ (c, Raise e) :: l2 ->
         (e = NotFound -> forall id, c <> GetDataset id /\ c <> GetTable id) ->
         l2 = [] /\ (run (main bq_client) w).1 = Raise e).
Proof.
  split; [vm_compute; reflexivity|].
  split; [vm_compute; reflexivity|].
  split; [vm_compute; reflexivity|].
  intros H.
  destruct (H racing_warehouse
              (take 3 (log (run (main bq_client) racing_warehouse).2))
              (DeleteTable "galvanic-ripsaw-381707.spx_trading.daily_summary")
              NotFound
              (drop 4 (log (run (main bq_client) racing_warehouse).2)))
    as [_ Hr].
  - vm_compute. reflexivity.
  - intros _ id. split; discriminate.
  - vm_compute in Hr. discriminate Hr.
Qed.

(** The daily_summary table handed over in a run on the empty warehouse. *)
Lemma tables_partitioned_by_date_and_clustered_witness :
  daily_summary_table
    ∈ created_tables ((log (run (main bq_client) empty_warehouse).2).*1)
  /\ time_partitioning daily_summary_table
     = Some (mkTimePartitioning DAY "date")
  /\ clustering_fields daily_summary_table = Some ["date"; "strategy"].
Proof.
  assert (Hin : daily_summary_table
    ∈ created_tables ((log (run (main bq_client) empty_warehouse).2).*1)).
  { apply list_elem_of_In. vm_compute. left. reflexivity. }
  split; [exact Hin|].
  destruct (tables_partitioned_by_date_and_clustered bq_client empty_warehouse)
    as (H & _ & _).
  destruct (H daily_summary_table Hin eq_refl) as [Htp _].
  split; [exact Htp|reflexivity].
Defined.

(** The daily_performance view handed over in a run on the empty
    warehouse. *)
Lemma view_queries_reference_their_source_table_witness :
  daily_performance_view
    ∈ created_tables ((log (run (main bq_client) empty_warehouse).2).*1)
  /\ (table_id daily_performance_view,
      daily_performance_query "galvanic-ripsaw-381707" "spx_trading") ∈
       [("galvanic-ripsaw-381707.spx_trading.daily_performance",
         daily_performance_query "galvanic-ripsaw-381707" "spx_trading");
        ("galvanic-ripsaw-381707.spx_trading.monthly_summary",
         monthly_summary_query "galvanic-ripsaw-381707" "spx_trading");
        ("galvanic-ripsaw-381707.spx_trading.strike_performance",
         strike_performance_query "galvanic-ripsaw-381707" "spx_trading")].
Proof.
  assert (Hin : daily_performance_view
    ∈ created_tables ((log (run (main bq_client) empty_warehouse).2).*1)).
  { apply list_elem_of_In. vm_compute. do 3 right. left. reflexivity. }
  split; [exact Hin|].
  destruct (view_queries_reference_their_source_table bq_client
              empty_warehouse) as (_ & _ & H).
  exact (H daily_performance_view _ Hin eq_refl).
Defined.

(** The trades table handed over in a run on the empty warehouse. *)
Lemma partition_field_leads_clustering_and_schema_witness :
  trades_table
    ∈ created_tables ((log (run (main bq_client) empty_warehouse).2).*1)
  /\ (exists rest, clustering_fields trades_table = Some ("date" :: rest))
  /\ head (schema trades_table)
     = Some (mkSchemaField "date" "DATE" "REQUIRED" None).
Proof.
  assert (Hin : trades_table
    ∈ created_tables ((log (run (main bq_client) empty_warehouse).2).*1)).
  { apply list_elem_of_In. vm_compute. right. left. reflexivity. }
  split; [exact Hin|].
  destruct (partition_field_leads_clustering_and_schema bq_client
              empty_warehouse) as (_ & H & _).
  destruct (H trades_table _ Hin eq_refl) as (_ & Hc & Hs).
  split; [exact Hc|exact Hs].
Defined.

(** * Further properties of the script *)

(** ** One object, any client *)

Section Conduct.
Context {W : Type}.
Variable client : Client W.

(** X1: What [create_table] hands over when its optional arguments are falsy:
    a partition field that is [None] or the empty string leaves the
    description without time partitioning, a clustering list that is [None]
    or empty leaves it without clustering; name and schema are as given. *)
Theorem falsy_arguments_leave_table_plain p d n sch pf cf (w : W) t :
  t ∈ created_tables
        ((log (run (create_table client p d n sch pf cf) w).2).*1) ->
  (pf = None \/ pf = Some "" -> time_partitioning t = None)
  /\ (cf = None \/ cf = Some [] -> clustering_fields t = None)
  /\ (time_partitioning t = None -> pf = None \/ pf = Some "")
  /\ (clustering_fields t = None -> cf = None \/ cf = Some [])
  /\ table_id t = p +:+ "." +:+ d +:+ "." +:+ n
  /\ schema t = sch
  /\ view_query t = None.
Proof.
  intros Ht. unfold run in Ht.
  destruct (follows_create_table client p d n sch pf cf (mkProc w [] []))
    as (l & Hl & Hsub & _).
  rewrite Hl in Ht. simpl in Ht.
  apply created_tables_sublist in Hsub.
  apply (elem_of_sublist _ _ _ Ht) in Hsub.
  apply list_elem_of_In in Hsub. simpl in Hsub.
  destruct Hsub as [<-|[]].
  unfold build_table.
  destruct pf as [[|a pf]|], cf as [[|c cf]|]; simpl.
  all: repeat split; try done; try (intros [?|?]; done); auto.
Qed.

(** Unfolds a provisioning function and splits on the outcome of every
    API call it can reach. *)
Ltac run_paths :=
  unfold run, create_table, create_view, ensure_dataset, try_except_NotFound,
    invoke, print, mbind, M_bind, mret, M_ret;
  simpl;
  repeat match goal with
         | |- context [client ?c ?w] =>
             destruct (client c w) as [[[]|[|?]] ?]; simpl
         end.

(** X2: [create_table] and [create_view] return only [True], and they return
    exactly when their last API call is the create and it returned: the
    result carries no information, failure shows as an exception. *)
Theorem create_returns_iff_create_call_returned p d n sch pf cf q (w : W) :
  let tid := p +:+ "." +:+ d +:+ "." +:+ n in
  let t := build_table tid sch pf cf in
  let v := set_view_query q (new_Table tid []) in
  let rt := run (create_table client p d n sch pf cf) w in
  let rv := run (create_view client p d n q) w in
  (forall b, rt.1 = Ok b -> b = true)
  /\ (rt.1 = Ok true <-> last (log rt.2) = Some (CreateTable t, Ok tt))
  /\ (forall b, rv.1 = Ok b -> b = true)
  /\ (rv.1 = Ok true <-> last (log rv.2) = Some (CreateTable v, Ok tt)).
Proof.
  intros tid t v rt rv. subst rt rv.
  unfold run, create_table, create_view. fold tid. fold t. fold v.
  clearbody t v tid.
  run_paths.
  all: repeat split; intros; simplify_eq; done.
Qed.

(** X3: The progress lines of [create_table] tell what happened: the line
    about the deleted table is printed exactly when the delete returned,
    the line announcing the creation exactly when the create call was
    made, and the line reporting the creation exactly when the function
    returns. *)
Theorem create_table_progress_lines p d n sch pf cf (w : W) :
  let tid := p +:+ "." +:+ d +:+ "." +:+ n in
  let t := build_table tid sch pf cf in
  let r := run (create_table client p d n sch pf cf) w in
  (("Deleted existing table '" +:+ n +:+ "'") ∈ stdout r.2
   <-> (DeleteTable tid, Ok tt) ∈ log r.2)
  /\ (("Creating table: " +:+ n) ∈ stdout r.2
      <-> exists o, (CreateTable t, o) ∈ log r.2)
  /\ (("✅ Table '" +:+ n +:+ "' created") ∈ stdout r.2 <-> r.1 = Ok true).
Proof.
  intros tid t r. subst r.
  unfold run, create_table. fold tid. fold t.
  clearbody t tid.
  run_paths.
  all: rewrite ?elem_of_cons, ?elem_of_nil.
  all: repeat split.
  all: cbv [String.append].
  all: intros;
    repeat match goal with
           | H : _ \/ _ |- _ => destruct H
           | H : False |- _ => destruct H
           | H : exists _, _ |- _ => destruct H
           | H : _ ∈ _ :: _ |- _ => apply elem_of_cons in H
           | H : _ ∈ [] |- _ => apply elem_of_nil in H
           end;
    simplify_eq; eauto 10.
  all: eexists; rewrite !elem_of_cons; eauto 10.
Qed.

End Conduct.

(** ** The whole run, any client *)

Section Course.
Context {W : Type}.
Variable client : Client W.

Lemma silent_ret {A} line (a : A) : silent_about line (mret a : M W A).
Proof.
  intros s. exists []. simpl. split; [by rewrite app_nil_r|].
  apply not_elem_of_nil.
Qed.

Lemma silent_invoke line c : silent_about line (invoke client c).
Proof.
  intros s. exists []. unfold invoke.
  destruct (client c (world s)); simpl. split; [by rewrite app_nil_r|].
  apply not_elem_of_nil.
Qed.

Lemma silent_print line x : x <> line -> silent_about line (print x : M W unit).
Proof.
  intros Hx s. exists [x]. simpl. split; [done|].
  rewrite list_elem_of_singleton. congruence.
Qed.

Lemma silent_bind {A B} line (m : M W A) (k : A -> M W B) :
  silent_about line m -> (forall a, silent_about line (k a)) ->
  silent_about line (m ≫= k).
Proof.
  intros Hm Hk s. rewrite bind_eq.
  destruct (Hm s) as (l1 & Hl1 & Hn1).
  destruct (m s) as [[a|e] s']; simpl in *.
  - destruct (Hk a s') as (l2 & Hl2 & Hn2).
    exists (l1 ++ l2). rewrite Hl2, Hl1, app_assoc. split; [done|].
    by apply not_elem_of_app.
  - by exists l1.
Qed.

Lemma silent_try line (body handler : M W unit) :
  silent_about line body -> silent_about line handler ->
  silent_about line (try_except_NotFound body handler).
Proof.
  intros Hb Hh s. unfold try_except_NotFound.
  destruct (Hb s) as (l1 & Hl1 & Hn1).
  destruct (body s) as [[a|[|r]] s']; simpl in *; [by exists l1| |by exists l1].
  destruct (Hh s') as (l2 & Hl2 & Hn2).
  exists (l1 ++ l2). rewrite Hl2, Hl1, app_assoc. split; [done|].
  by apply not_elem_of_app.
Qed.

(** Proves that a chain of binds never prints a line that differs from
    each of its own at some character. *)
Ltac silent_chain :=
  repeat first
    [ apply silent_ret | apply silent_invoke
    | apply silent_print; cbv [String.append]; discriminate
    | apply silent_try
    | apply silent_bind; [|intros _] ].

Lemma silent_create_table p d n sch pf cf :
  silent_about "✅ BigQuery setup complete"
    (create_table client p d n sch pf cf).
Proof. unfold create_table. silent_chain. Qed.

Lemma silent_create_view p d n q :
  silent_about "✅ BigQuery setup complete" (create_view client p d n q).
Proof. unfold create_view. silent_chain. Qed.

Lemma silent_ensure_dataset n id :
  silent_about "✅ BigQuery setup complete" (ensure_dataset client n id).
Proof. unfold ensure_dataset. silent_chain. Qed.

Lemma silent_create_views p d :
  silent_about "✅ BigQuery setup complete" (create_views client p d).
Proof.
  unfold create_views.
  repeat first
    [ apply silent_create_view | apply silent_ret
    | apply silent_print; discriminate
    | apply silent_bind; [|intros _] ].
Qed.

Lemma finishes_with_print line : finishes_with line (print line : M W unit).
Proof.
  intros s Hs. simpl. split; [split|].
  - intros _. apply elem_of_app. right. by apply list_elem_of_singleton.
  - intros _. by exists tt.
  - intros _. apply last_snoc.
Qed.

Lemma finishes_with_bind {A B} line (m : M W A) (k : A -> M W B) :
  silent_about line m -> (forall a, finishes_with line (k a)) ->
  finishes_with line (m ≫= k).
Proof.
  intros Hm Hk s Hs. rewrite bind_eq.
  destruct (Hm s) as (l1 & Hl1 & Hn1).
  destruct (m s) as [[a|e] s']; simpl in *.
  - apply Hk. rewrite Hl1. by apply not_elem_of_app.
  - split; [split|].
    + intros [a Ha]. discriminate.
    + intros Hin. exfalso. rewrite Hl1 in Hin.
      apply elem_of_app in Hin as [?|?]; done.
    + intros [a Ha]. discriminate.
Qed.

(** X4: The completion line is the verdict of the run: [main] prints
    "BigQuery setup complete" exactly when it returns, as its last line;
    a run that raises never prints it. *)
Theorem completion_line_iff_run_returns (w : W) :
  let r := run (main client) w in
  (r.1 = Ok tt <-> "✅ BigQuery setup complete" ∈ stdout r.2)
  /\ (r.1 = Ok tt -> last (stdout r.2) = Some "✅ BigQuery setup complete").
Proof.
  intros r. subst r. unfold run.
  assert (H : finishes_with "✅ BigQuery setup complete" (main client)).
  { unfold main.
    repeat first
      [ apply finishes_with_print
      | apply finishes_with_bind;
          [first [ apply silent_ensure_dataset | apply silent_create_table
                 | apply silent_create_views ]
          |intros _] ]. }
  destruct (H (mkProc w [] [])) as [Hiff Hlast]; [apply not_elem_of_nil|].
  split.
  - rewrite <- Hiff. split; [by exists tt|]. intros [[] Ha]. done.
  - intros Hr. apply Hlast. by exists tt.
Qed.

(** *** The order of the calls *)

Lemma deletes_after_lookup_app l1 l2 :
  deletes_after_lookup l1 -> deletes_after_lookup l2 ->
  deletes_after_lookup (l1 ++ l2).
Proof.
  intros H1 H2 a id r b Heq.
  apply app_eq_inv in Heq as [(k & -> & Hk)|(k & -> & Hk)].
  - destruct k as [|x k]; simpl in Hk.
    + subst l2. destruct (H2 [] id r b eq_refl) as (l0 & Hl0).
      by destruct l0.
    + injection Hk as <- ->.
      destruct (H1 a id r k) as (l0 & ->); [done|]. by exists l0.
  - destruct (H2 k id r b Hk) as (l0 & ->).
    exists (l1 ++ l0). by rewrite app_assoc.
Qed.

(** Splits on the outcome of every API call a function can reach. *)
Ltac call_paths :=
  unfold try_except_NotFound, invoke, print, mbind, M_bind, mret, M_ret;
  simpl;
  repeat match goal with
         | |- context [client ?c ?w] =>
             destruct (client c w) as [[[]|[|?]] ?]; simpl
         end.

Ltac name_segment :=
  eexists; split; [rewrite <- ?app_assoc; simpl; reflexivity|].

Ltac solve_guarded :=
  let H := fresh in
  intros [|? [|? [|? [|? ?]]]] ? ? ? H; simplify_eq/=;
  first [ by eexists [] | by eexists [_] | by eexists [_; _] ].

Lemma guarded_create_table p d n sch pf cf :
  logs deletes_after_lookup (create_table client p d n sch pf cf).
Proof.
  intros s. unfold create_table.
  generalize (build_table (p +:+ "." +:+ d +:+ "." +:+ n) sch pf cf) as t.
  generalize (p +:+ "." +:+ d +:+ "." +:+ n) as tid. intros tid t.
  call_paths; name_segment; solve_guarded.
Qed.

Lemma guarded_create_view p d n q :
  logs deletes_after_lookup (create_view client p d n q).
Proof.
  intros s. unfold create_view.
  generalize (set_view_query q (new_Table (p +:+ "." +:+ d +:+ "." +:+ n) []))
    as t.
  generalize (p +:+ "." +:+ d +:+ "." +:+ n) as tid. intros tid t.
  call_paths; name_segment; solve_guarded.
Qed.

Lemma guarded_ensure_dataset n id :
  logs deletes_after_lookup (ensure_dataset client n id).
Proof.
  intros s. unfold ensure_dataset.
  call_paths; name_segment; solve_guarded.
Qed.

Lemma guarded_quiet {A} (m : M W A) :
  (forall s, log (m s).2 = log s) -> logs deletes_after_lookup m.
Proof.
  intros Hm s. exists []. rewrite Hm, app_nil_r. split; [done|].
  intros [|? ?] ? ? ? ?; done.
Qed.

Ltac guarded_chain :=
  repeat first
    [ apply guarded_ensure_dataset | apply guarded_create_table
    | apply guarded_create_view | apply guarded_quiet; reflexivity
    | eapply logs_bind;
        [ | intros _ | exact (fun _ H => H)
          | exact deletes_after_lookup_app ] ].

Lemma guarded_main : logs deletes_after_lookup (main client).
Proof. unfold main, create_views. guarded_chain. Qed.

Lemma logs_weaken {A} (P Q : list event -> Prop) (m : M W A) :
  logs P m -> (forall l, P l -> Q l) -> logs Q m.
Proof. intros Hm HPQ s. destruct (Hm s) as (l & Hl & HP). eauto. Qed.

Lemma main_first_call :
  logs (fun l => exists o rest,
          l = (GetDataset "galvanic-ripsaw-381707.spx_trading", o) :: rest)
    (main client).
Proof.
  set (starts := fun l : list event => exists o rest,
          l = (GetDataset "galvanic-ripsaw-381707.spx_trading", o) :: rest).
  unfold main, create_views.
  apply (logs_bind starts (fun _ => True) starts).
  - intros s. unfold ensure_dataset, starts.
    call_paths; name_segment; eauto.
  - intros _. apply (logs_weaken deletes_after_lookup); [|done].
    guarded_chain.
  - auto.
  - intros l1 l2 (o & rest & ->) _. unfold starts. simpl. eauto.
Qed.

Lemma creates_bind {A B} (m : M W A) (k : A -> M W B) o1 o2 :
  creates_in_order m o1 -> (forall a, creates_in_order (k a) o2) ->
  creates_in_order (m ≫= k) (o1 ++ o2).
Proof.
  intros Hm Hk s. rewrite bind_eq.
  destruct (Hm s) as (l1 & Hl1 & Hp1 & Hok1).
  destruct (m s) as [[a|e] s']; simpl in *.
  - destruct (Hk a s') as (l2 & Hl2 & Hp2 & Hok2).
    exists (l1 ++ l2). rewrite Hl2, Hl1, app_assoc, fmap_app.
    rewrite created_tables_app, Hok1 by eauto.
    split; [done|]. split; [by apply prefix_app|].
    intros Hb. by rewrite Hok2.
  - exists l1. split; [done|]. split; [by apply prefix_app_r|].
    intros [a Ha]. discriminate.
Qed.

Lemma creates_eq {A} (m : M W A) o1 o2 :
  creates_in_order m o1 -> o1 = o2 -> creates_in_order m o2.
Proof. by intros H <-. Qed.

Ltac solve_prefix :=
  split; [first [apply prefix_nil | reflexivity]|];
  first [ intros [? ?]; discriminate | intros _; reflexivity ].

Lemma creates_create_table p d n sch pf cf :
  creates_in_order (create_table client p d n sch pf cf)
    [build_table (p +:+ "." +:+ d +:+ "." +:+ n) sch pf cf].
Proof.
  intros s. unfold create_table.
  generalize (build_table (p +:+ "." +:+ d +:+ "." +:+ n) sch pf cf) as t.
  generalize (p +:+ "." +:+ d +:+ "." +:+ n) as tid. intros tid t.
  call_paths; name_segment; solve_prefix.
Qed.

Lemma creates_create_view p d n q :
  creates_in_order (create_view client p d n q)
    [set_view_query q (new_Table (p +:+ "." +:+ d +:+ "." +:+ n) [])].
Proof.
  intros s. unfold create_view.
  generalize (set_view_query q (new_Table (p +:+ "." +:+ d +:+ "." +:+ n) []))
    as t.
  generalize (p +:+ "." +:+ d +:+ "." +:+ n) as tid. intros tid t.
  call_paths; name_segment; solve_prefix.
Qed.

Lemma creates_ensure_dataset n id :
  creates_in_order (ensure_dataset client n id) [].
Proof.
  intros s. unfold ensure_dataset.
  call_paths; name_segment; solve_prefix.
Qed.

Lemma creates_quiet {A} (m : M W A) :
  (forall s, log (m s).2 = log s) -> creates_in_order m [].
Proof. intros Hm s. exists []. by rewrite Hm, app_nil_r. Qed.

Lemma creates_main : creates_in_order (main client) main_objects.
Proof.
  unfold main, create_views. eapply creates_eq.
  - repeat first
      [ apply creates_ensure_dataset | apply creates_create_table
      | apply creates_create_view
      | apply creates_quiet; reflexivity
      | apply creates_bind; [|intros _] ].
  - reflexivity.
Qed.

(** X5: The objects are created in the order of the script, none skipped:
    with any client, what [main] has handed to [create_table] at the end of
    a run, complete or not, is an initial segment of daily_summary, trades,
    market_data_archive, daily_performance, monthly_summary,
    strike_performance.  So a view is only created after the three tables
    have been. *)
Theorem objects_created_in_order (w : W) :
  let made := created_tables ((log (run (main client) w).2).*1) in
  made `prefix_of` main_objects
  /\ (forall v, v ∈ made -> is_Some (view_query v) ->
      [daily_summary_table; trades_table; market_data_archive_table]
        `prefix_of` made).
Proof.
  intros made. subst made. unfold run.
  destruct (creates_main (mkProc w [] [])) as (l & Hl & Hpre & _).
  rewrite Hl. simpl. split; [done|].
  intros v Hv Hq. destruct Hpre as [k Hk]. unfold main_objects in Hk.
  destruct (created_tables (l.*1)) as [|x1 [|x2 [|x3 made]]];
    simplify_eq/=.
  - by apply elem_of_nil in Hv.
  - apply list_elem_of_singleton in Hv as ->. by destruct Hq.
  - apply elem_of_cons in Hv as [->|Hv]; [by destruct Hq|].
    apply list_elem_of_singleton in Hv as ->. by destruct Hq.
  - by exists made.
Qed.

(** X6: The calls of a run, with any client: the first is the dataset lookup;
    no call is made twice and there are at most twenty; and a delete is
    only ever made on one of the six objects of the script, right after a
    lookup of that object has returned. *)
Theorem calls_never_repeat_and_deletes_are_guarded (w : W) :
  let l := log (run (main client) w).2 in
  NoDup (l.*1)
  /\ 1 <= length l <= 20
  /\ (exists o,
      head l = Some (GetDataset "galvanic-ripsaw-381707.spx_trading", o))
  /\ (forall l1 id o l2,
      l = l1 ++ (DeleteTable id, o) :: l2 ->
      id ∈ table_id <$> main_objects
      /\ exists l0, l1 = l0 ++ [(GetTable id, Ok tt)]).
Proof.
  intros l. subst l.
  destruct (main_log client w) as (Hsub & _).
  unfold run in *.
  destruct (main_first_call (mkProc w [] [])) as (l & Hl & o & rest & ->).
  destruct (guarded_main (mkProc w [] [])) as (l' & Hl' & Hg).
  rewrite Hl in Hl'. simpl in Hl'. subst l'.
  rewrite Hl in Hsub |- *.
  split; [|split; [|split]].
  - eapply sublist_NoDup; [|exact Hsub].
    apply NoDup_by_decide. vm_compute. reflexivity.
  - apply sublist_length in Hsub. rewrite length_fmap in Hsub.
    change (length main_script) with 20 in Hsub. simpl in *.
    unfold event in *. lia.
  - eauto.
  - intros l1 id o' l2 Heq. split; [|by eapply Hg].
    assert (Hin : DeleteTable id ∈ main_script).
    { eapply elem_of_sublist; [|exact Hsub].
      rewrite Heq, fmap_app. apply elem_of_app. right. simpl. left. }
    apply list_elem_of_In in Hin. simpl in Hin.
    repeat (destruct Hin as [Hin|Hin]; [try discriminate Hin|]);
      try (by destruct Hin).
    all: injection Hin as <-; apply list_elem_of_In; simpl; auto 10.
Qed.

End Course.

(** ** What the warehouse is left with *)

Section Storage.

Implicit Types (ds : gmap string Dataset) (os : gmap string stored).

Lemma table_id_inj p d n1 n2 :
  p +:+ "." +:+ d +:+ "." +:+ n1 = p +:+ "." +:+ d +:+ "." +:+ n2 -> n1 = n2.
Proof. intros H. by repeat apply (inj (String.app _)) in H. Qed.

(** X7: Replacing a table is not atomic: when the old object is there and the
    warehouse refuses the create call, [create_table] and [create_view]
    raise that error after the delete has gone through, so the warehouse
    holds neither the old object nor the new one. *)
Theorem failed_create_loses_the_old_object ds os p d n sch pf cf q e old :
  let tid := p +:+ "." +:+ d +:+ "." +:+ n in
  let w := mkWarehouse ds os [Quiet; Quiet; Fail e] in
  let rt := run (create_table bq_client p d n sch pf cf) w in
  let rv := run (create_view bq_client p d n q) w in
  os !! tid = Some old ->
  (rt.1 = Raise e
   /\ objects (world rt.2) = delete tid os
   /\ objects (world rt.2) !! tid = None)
  /\ (rv.1 = Raise e
      /\ objects (world rv.2) = delete tid os
      /\ objects (world rv.2) !! tid = None).
Proof.
  intros tid w rt rv Hold. subst rt rv w.
  unfold run, create_table, create_view. fold tid.
  unfold try_except_NotFound, invoke, print, mbind, M_bind, mret, M_ret,
    bq_client; simpl.
  rewrite !Hold; simpl. rewrite !Hold; simpl.
  by rewrite lookup_delete_eq.
Qed.

(** X8: A run of [main] served without interference changes nothing but its
    own: every object stored under another name than its six is as
    before, every other dataset is as before, and a dataset that is
    already there is kept as it is (its location is not set to "US");
    only a missing dataset is created, with location "US". *)
Theorem main_touches_only_its_objects ds os :
  let w' := world (run (main bq_client) (mkWarehouse ds os [])).2 in
  (forall k, k ∉ table_id <$> main_objects -> objects w' !! k = os !! k)
  /\ (forall k, k <> "galvanic-ripsaw-381707.spx_trading" ->
        datasets w' !! k = ds !! k)
  /\ (forall d0, ds !! "galvanic-ripsaw-381707.spx_trading" = Some d0 ->
        datasets w' !! "galvanic-ripsaw-381707.spx_trading" = Some d0)
  /\ (ds !! "galvanic-ripsaw-381707.spx_trading" = None ->
        datasets w' !! "galvanic-ripsaw-381707.spx_trading"
        = Some (mkDataset "galvanic-ripsaw-381707.spx_trading" (Some "US"))).
Proof.
  intros w'. subst w'. unfold run.
  destruct (main_quiet (mkProc (mkWarehouse ds os []) [] []) eq_refl)
    as (s' & E & Hw).
  rewrite E. simpl in *. rewrite Hw. simpl. unfold ensured. simpl.
  repeat split.
  - intros k Hk. unfold provisioned, install.
    rewrite !lookup_insert_ne; [done|..].
    all: intros <-; apply Hk; apply list_elem_of_In; simpl; auto 10.
  - intros k Hk. destruct (ds !! _); [done|].
    by rewrite lookup_insert_ne.
  - intros d0 Hd. by rewrite Hd.
  - intros Hd. rewrite Hd. by rewrite lookup_insert_eq.
Qed.

(** X9: How calls of [create_table] compose on a warehouse served without
    interference: calling it twice with the same arguments leaves what one
    call leaves; of two calls on the same name the second one decides; and
    two calls on different names can be made in either order. *)
Theorem create_table_composes ds os p d n1 n2 sch1 pf1 cf1 sch2 pf2 cf2 :
  let c1 := create_table bq_client p d n1 sch1 pf1 cf1 in
  let c2 := create_table bq_client p d n2 sch2 pf2 cf2 in
  let w := mkWarehouse ds os [] in
  world (run (c1 ;; c1) w).2 = world (run c1 w).2
  /\ (n1 = n2 -> world (run (c1 ;; c2) w).2 = world (run c2 w).2)
  /\ (n1 <> n2 -> world (run (c1 ;; c2) w).2 = world (run (c2 ;; c1) w).2).
Proof.
  intros c1 c2 w. subst c1 c2 w. unfold run.
  set (s := mkProc (mkWarehouse ds os []) [] []).
  destruct (create_table_quiet p d n1 sch1 pf1 cf1 s eq_refl)
    as (s1 & E1 & W1 & _).
  destruct (create_table_quiet p d n2 sch2 pf2 cf2 s eq_refl)
    as (s2 & E2 & W2 & _).
  destruct (create_table_quiet p d n1 sch1 pf1 cf1 s1) as (s11 & E11 & W11 & _);
    [by rewrite W1|].
  destruct (create_table_quiet p d n2 sch2 pf2 cf2 s1) as (s12 & E12 & W12 & _);
    [by rewrite W1|].
  destruct (create_table_quiet p d n1 sch1 pf1 cf1 s2) as (s21 & E21 & W21 & _);
    [by rewrite W2|].
  rewrite !(bind_ok _ _ _ _ _ E1), !(bind_ok _ _ _ _ _ E2).
  rewrite E1, E2, E11, E12, E21. simpl.
  rewrite W11, W12, W21, W1, W2. simpl.
  split; [|split].
  - by rewrite insert_insert_eq.
  - intros ->. by rewrite insert_insert_eq.
  - intros Hne. f_equal. apply insert_insert_ne.
    intros Heq. by apply Hne, (table_id_inj p d).
Qed.

End Storage.

(** ** The columns the views read *)


(** ** More sample runs *)

(** A table created with an empty partition field and an empty clustering
    list on the empty warehouse. *)
Lemma falsy_arguments_leave_table_plain_witness :
  new_Table "p.d.t" []
    ∈ created_tables
        ((log (run (create_table bq_client "p" "d" "t" [] (Some "") (Some []))
                 empty_warehouse).2).*1)
  /\ time_partitioning (new_Table "p.d.t" []) = None
  /\ clustering_fields (new_Table "p.d.t" []) = None.
Proof.
  assert (Hin : new_Table "p.d.t" []
    ∈ created_tables
        ((log (run (create_table bq_client "p" "d" "t" [] (Some "") (Some []))
                 empty_warehouse).2).*1)).
  { apply list_elem_of_In. vm_compute. left. reflexivity. }
  split; [exact Hin|].
  destruct (falsy_arguments_leave_table_plain bq_client "p" "d" "t" []
              (Some "") (Some []) empty_warehouse _ Hin)
    as (Hp & Hc & _).
  split; [apply Hp; right; reflexivity|apply Hc; right; reflexivity].
Defined.

(** An old table with one row, and a warehouse that refuses the create. *)
Lemma failed_create_loses_the_old_object_witness :
  ({[ "p.d.t" := mkStored (new_Table "p.d.t" []) [[("date", "2024-01-02")]] ]}
     : gmap string stored) !! "p.d.t"
  = Some (mkStored (new_Table "p.d.t" []) [[("date", "2024-01-02")]])
  /\ (run (create_table bq_client "p" "d" "t" [] None None)
        (mkWarehouse ∅
           {[ "p.d.t" :=
                mkStored (new_Table "p.d.t" []) [[("date", "2024-01-02")]] ]}
           [Quiet; Quiet; Fail (ApiError "Forbidden")])).1
     = Raise (ApiError "Forbidden")
  /\ objects
       (world
          (run (create_table bq_client "p" "d" "t" [] None None)
             (mkWarehouse ∅
                {[ "p.d.t" :=
                     mkStored (new_Table "p.d.t" [])
                       [[("date", "2024-01-02")]] ]}
                [Quiet; Quiet; Fail (ApiError "Forbidden")])).2)
       !! "p.d.t" = None.
Proof.
  assert (Hold :
    ({[ "p.d.t" :=
          mkStored (new_Table "p.d.t" []) [[("date", "2024-01-02")]] ]}
       : gmap string stored) !! ("p" +:+ "." +:+ "d" +:+ "." +:+ "t")
    = Some (mkStored (new_Table "p.d.t" []) [[("date", "2024-01-02")]])).
  { vm_compute. reflexivity. }
  split; [exact Hold|].
  destruct (failed_create_loses_the_old_object ∅ _ "p" "d" "t" [] None None
              "" (ApiError "Forbidden") _ Hold) as ((Hr & _ & Hn) & _).
  split; [exact Hr|exact Hn].
Defined.

(** A complete run on the empty warehouse: the daily_performance view is
    among the objects handed over, after the three tables. *)
Lemma objects_created_in_order_witness :
  [daily_summary_table; trades_table; market_data_archive_table]
    `prefix_of`
    created_tables ((log (run (main bq_client) empty_warehouse).2).*1).
Proof.
  destruct (objects_created_in_order bq_client empty_warehouse) as [_ H].
  apply (H daily_performance_view).
  - apply list_elem_of_In. vm_compute. do 3 right. left. reflexivity.
  - by eexists.
Defined.

(** A run on the warehouse whose dataset is located in "EU": the dataset
    is kept as it is. *)
Lemma main_touches_only_its_objects_witness :
  datasets (world (run (main bq_client) warehouse_with_dataset).2)
    !! "galvanic-ripsaw-381707.spx_trading"
  = Some (mkDataset "galvanic-ripsaw-381707.spx_trading" (Some "EU")).
Proof.
  destruct (main_touches_only_its_objects (datasets warehouse_with_dataset) ∅)
    as (_ & _ & H & _).
  apply H. vm_compute. reflexivity.
Defined.

(** Two tables with different names, created in either order. *)
Lemma create_table_composes_witness :
  world
    (run (create_table bq_client "p" "d" "a" [] None None ;;
          create_table bq_client "p" "d" "b" [] None None) empty_warehouse).2
  = world
      (run (create_table bq_client "p" "d" "b" [] None None ;;
            create_table bq_client "p" "d" "a" [] None None) empty_warehouse).2.
Proof.
  destruct (create_table_composes ∅ ∅ "p" "d" "a" "b" [] None None [] None None)
    as (_ & _ & H).
  apply H. discriminate.
Defined.
